(** * Clinical extractor backend: file indexing, citations and the AI proxy

    A shallow embedding of [backend/app/services/file_search.py] (the
    [FileSearchService] class) and of the provider orchestration layer
    described by the specification, with the properties claimed of them. *)

From stdpp Require Import base option list gmap strings.
From Stdlib Require Import Ascii String ZArith NArith QArith Lia.

Open Scope string_scope.
Open Scope list_scope.
Open Scope Z_scope.

(* ===================================================================== *)
(** ** Python results: a value, a raised exception, or a loop cut short  *)
(* ===================================================================== *)

(** The outcome of running a piece of Python: [Ok v] is a normal return,
    [Raise msg] is [raise Exception(msg)] ([msg] is [str(e)]), and
    [OutOfFuel] marks a [while] loop of the model that was given too few
    iterations (shown below never to happen). *)
Inductive Res (A : Type) : Type :=
| Ok (a : A)
| Raise (msg : string)
| OutOfFuel.
Arguments Ok {A} a.
Arguments Raise {A} msg.
Arguments OutOfFuel {A}.

(** What a call into a library or a remote service gives back: a value,
    or an exception with its message. *)
Inductive Answer (A : Type) : Type :=
| Returns (a : A)
| Throws (msg : string).
Arguments Returns {A} a.
Arguments Throws {A} msg.

Definition throws {A} (a : Answer A) : bool :=
  match a with Throws _ => true | Returns _ => false end.

Definition is_raise {A} (r : Res A) : bool :=
  match r with Raise _ => true | _ => false end.

(** [M St A]: a computation over a mutable state [St] that may raise. The
    state is kept when an exception is raised: Python does not roll back. *)
Definition M (St A : Type) : Type := St -> Res A * St.

Definition ret {St A} (a : A) : M St A := fun s => (Ok a, s).

Definition raise {St A} (msg : string) : M St A := fun s => (Raise msg, s).

Definition bind {St A B} (m : M St A) (k : A -> M St B) : M St B :=
  fun s =>
    match m s with
    | (Ok a, s') => k a s'
    | (Raise msg, s') => (Raise msg, s')
    | (OutOfFuel, s') => (OutOfFuel, s')
    end.

(** [try: body except Exception as e: handler(str(e))]. *)
Definition try_except {St A} (body : M St A) (handler : string -> M St A)
  : M St A :=
  fun s =>
    match body s with
    | (Raise msg, s') => handler msg s'
    | other => other
    end.

Definition modify {St} (f : St -> St) : M St unit := fun s => (Ok tt, f s).

Definition out_of_fuel {St A} : M St A := fun s => (OutOfFuel, s).

Definition of_answer {A} (a : Answer A) : Res A :=
  match a with
  | Returns v => Ok v
  | Throws msg => Raise msg
  end.

(** A library call: its value, or its exception raised here. *)
Definition lift_answer {St A} (a : Answer A) : M St A :=
  fun s => (of_answer a, s).

Declare Scope py_scope.
Delimit Scope py_scope with py.
Notation "x <- m ;; k" := (bind m (fun x => k))
  (at level 100, m at next level, right associativity) : py_scope.
Notation "m ;;; k" := (bind m (fun _ => k))
  (at level 100, right associativity) : py_scope.

(* ===================================================================== *)
(** ** String helpers used by the service                                *)
(* ===================================================================== *)

(** [',' in s]. *)
Fixpoint has_comma (s : string) : bool :=
  match s with
  | EmptyString => false
  | String c rest => if Ascii.eqb c ","%char then true else has_comma rest
  end.

(** The part of [s] before its first comma (all of [s] when it has none). *)
Fixpoint before_comma (s : string) : string :=
  match s with
  | EmptyString => EmptyString
  | String c rest =>
      if Ascii.eqb c ","%char then EmptyString else String c (before_comma rest)
  end.

(** The part of [s] after its first comma. *)
Fixpoint after_comma (s : string) : string :=
  match s with
  | EmptyString => EmptyString
  | String c rest => if Ascii.eqb c ","%char then rest else after_comma rest
  end.

(** [s.split(',')[1]], for an [s] that has a comma: the text between the
    first comma and the second one (or the end). *)
Definition split_comma_1 (s : string) : string := before_comma (after_comma s).

(** [pdf_base64.split(',')[1] if ',' in pdf_base64 else pdf_base64]: the
    text handed to [base64.b64decode]. *)
Definition encoded_part (pdf_base64 : string) : string :=
  if has_comma pdf_base64 then split_comma_1 pdf_base64 else pdf_base64.


(** Python truthiness of an optional string: [None] and [''] are false. *)
Definition truthy_str (o : option string) : bool :=
  match o with
  | Some (String _ _) => true
  | _ => false
  end.

(* ===================================================================== *)
(** ** The file search service ([file_search.py])                        *)
(* ===================================================================== *)

Module FileSearch.

(** *** What the SDK returns

    The service reads the SDK's objects through [hasattr] and truthiness
    tests. Where the code tests [hasattr(o, "a") and o.a], an object
    without the attribute, one whose attribute holds [None] and one whose
    attribute holds an empty list all take the same branch: such an
    attribute is an [option], [None] standing for the first two. Where
    the code tests [hasattr] alone, an attribute that is missing and one
    that holds [None] behave differently (the second is used, and may
    make the code raise): such an attribute is an [Attr]. *)

Inductive Attr (A : Type) : Type :=
| Missing            (* [hasattr] is false *)
| IsNone             (* the attribute is there and holds [None] *)
| Has (v : A).       (* the attribute is there and holds [v] *)

Arguments Missing {A}.
Arguments IsNone {A}.
Arguments Has {A} v.

(** [hasattr(o, "a")]. *)
Definition hasattr {A} (a : Attr A) : bool :=
  match a with
  | Missing => false
  | IsNone | Has _ => true
  end.

Record FileSearchStore := { name : string }.

(** A long-running operation handle; [done] is [operation.done]. *)
Record Operation := { op_name : string; done : bool }.

Record Segment := { seg_text : Attr string }.

Record GroundingChunk := { page_number : Attr Z }.

Record GroundingSupport := {
  segment : Attr Segment;
  grounding_chunk_indices : option (list Z)
}.

Record GroundingMetadata := {
  grounding_supports : Attr (list GroundingSupport);
  grounding_chunks : Attr (list GroundingChunk)
}.

Record Candidate := { grounding_metadata : option GroundingMetadata }.

(** [text] is a property of the SDK's response class: it is always
    there, and holds [None] or a string. *)
Record Response := {
  text : option string;
  candidates : option (list Candidate)
}.

(** *** What the service does to the outside world *)

Inductive Event : Type :=
| EvCreateStore (display_name : string)
| EvUpload (file store_name display_name : string)
| EvOperationsGet (operation : Operation)
| EvGenerateContent (model store_name contents : string)
| EvSleep (seconds : Z).

(** [genai.Client]: each remote call answers from the history of the
    interaction so far (so that a poll can answer differently each time)
    and may raise. *)
Record Client := {
  file_search_stores_create : list Event -> string -> Answer FileSearchStore;
  upload_to_file_search_store :
    list Event -> string -> string -> string -> Answer Operation;
  operations_get : list Event -> Operation -> Answer Operation;
  generate_content :
    list Event -> string -> string -> string -> Answer Response
}.

(** The Python runtime the service relies on: [base64.b64decode] (which
    raises on bad padding) and the name [tempfile.NamedTemporaryFile]
    picks in a given temporary directory. *)
Record Runtime := {
  b64decode : string -> Answer (list Byte.byte);
  mkstemp : gmap string (list Byte.byte) -> string
}.

(** The service object together with the process's surroundings. *)
Record State := {
  store_mappings : gmap string string;      (* self.store_mappings *)
  client : option Client;                   (* self.client *)
  files : gmap string (list Byte.byte);     (* the temporary directory *)
  trace : list Event                        (* remote calls and sleeps *)
}.

Definition set_store_mappings (f : gmap string string -> gmap string string)
  (s : State) : State :=
  {| store_mappings := f (store_mappings s); client := client s;
     files := files s; trace := trace s |}.

Definition set_files
  (f : gmap string (list Byte.byte) -> gmap string (list Byte.byte))
  (s : State) : State :=
  {| store_mappings := store_mappings s; client := client s;
     files := f (files s); trace := trace s |}.

Definition add_trace (events : list Event) (s : State) : State :=
  {| store_mappings := store_mappings s; client := client s;
     files := files s; trace := trace s ++ events |}.

Definition log (e : Event) (s : State) : State := add_trace [e] s.

(** [FileSearchService.__init__]: no mapping yet; the client is there
    only when the SDK could be loaded and the client built. *)
Definition init (c : option Client) : State :=
  {| store_mappings := ∅; client := c; files := ∅; trace := [] |}.

(** A remote call: answered from the history, then recorded. *)
Definition remote {A} (e : Event) (answer : list Event -> Answer A)
  : M State A :=
  fun s => (of_answer (answer (trace s)), log e s).

(** [await asyncio.sleep(seconds)]. *)
Definition sleep (seconds : Z) : M State unit := modify (log (EvSleep seconds)).

Definition unavailable : string :=
  "File Search API not available. Install google-genai package for this feature.".

Definition timed_out : string := "File upload timed out after 60 seconds".

Definition max_wait : Z := 60.
Definition poll_interval : Z := 5.

(** Iterations that the polling loop can ever need. *)
Definition poll_fuel : nat := 12%nat.

Record UploadResult := {
  file_search_store_id : string;
  message : string
}.

(** One entry of ["citations"]; [cit_text] and [cit_page_number] are
    [None] where the dictionary holds [None]. *)
Record Citation := {
  cit_text : option string;
  cit_page_number : option Z;
  confidence : Q
}.

Record QueryResult := {
  document_id : string;
  answer : string;
  citations : list Citation
}.

Definition default_confidence : Q := 0.95%Q.

Definition no_answer : string := "No answer generated".

(** The messages of the exceptions that Python raises on [for x in None],
    on [len(None)] and on an index outside a list. *)
Definition not_iterable : string := "'NoneType' object is not iterable".
Definition no_len : string := "object of type 'NoneType' has no len()".
Definition index_out_of_range : string := "list index out of range".

Section Service.

Variable rt : Runtime.

(** [with tempfile.NamedTemporaryFile(suffix='.pdf', delete=False) as f:
    f.write(pdf_data); tmp_file_path = f.name]. *)
Definition named_temporary_file (data : list Byte.byte) : M State string :=
  fun s =>
    let path := mkstemp rt (files s) in
    (Ok path, set_files (insert path data) s).

(** [os.unlink(path)]. *)
Definition unlink (path : string) : M State unit :=
  modify (set_files (delete path)).

(** The loop
    [while not operation.done and elapsed < max_wait:
       await asyncio.sleep(5); operation = client.operations.get(operation);
       elapsed += 5]. *)
Fixpoint poll (fuel : nat) (c : Client) (operation : Operation) (elapsed : Z)
  : M State Operation :=
  if negb (done operation) && (elapsed <? max_wait) then
    match fuel with
    | O => out_of_fuel
    | S fuel' =>
        (sleep poll_interval ;;;
         operation' <- remote (EvOperationsGet operation)
                         (fun h => operations_get c h operation) ;;
         poll fuel' c operation' (elapsed + poll_interval))%py
    end
  else ret operation.

(** The body of the [try] block of [upload_pdf_to_file_search]. *)
Definition upload_body (c : Client) (document_id pdf_base64 filename : string)
  : M State UploadResult :=
  (pdf_data <- lift_answer (b64decode rt (encoded_part pdf_base64)) ;;
   tmp_file_path <- named_temporary_file pdf_data ;;
   file_search_store <-
     remote (EvCreateStore ("clinical_doc_" +:+ document_id))
       (fun h => file_search_stores_create c h
                   ("clinical_doc_" +:+ document_id)) ;;
   operation <-
     remote (EvUpload tmp_file_path (name file_search_store) filename)
       (fun h => upload_to_file_search_store c h tmp_file_path
                   (name file_search_store) filename) ;;
   operation <- poll poll_fuel c operation 0 ;;
   unlink tmp_file_path ;;;
   if negb (done operation) then
     raise timed_out
   else
     (modify (set_store_mappings
                (insert document_id (name file_search_store))) ;;;
      ret {| file_search_store_id := name file_search_store;
             message := "PDF uploaded successfully to File Search store" |}))%py.

Definition upload_pdf_to_file_search (document_id pdf_base64 filename : string)
  : M State UploadResult :=
  fun s =>
    match client s with
    | None => raise unavailable s
    | Some c =>
        try_except (upload_body c document_id pdf_base64 filename)
          (fun e => raise ("Failed to upload PDF to File Search: " +:+ e)) s
    end.

End Service.

(** [l[i]] on a Python list: a negative index counts from the end, and
    an index outside the list raises. *)
Definition getitem {A} (l : list A) (i : Z) : Answer A :=
  let n := Z.of_nat (List.length l) in
  let j := if i <? 0 then i + n else i in
  if (0 <=? j) && (j <? n) then
    match l !! Z.to_nat j with
    | Some x => Returns x
    | None => Throws index_out_of_range
    end
  else Throws index_out_of_range.

(** "Try to extract page number from chunks": [page_num] stays [None]
    unless the support has a first chunk index, the metadata has a
    [grounding_chunks] attribute, the index is below its length, and the
    chunk there has a [page_number]. [len] raises when the attribute holds
    [None], and the indexing raises when the index is negative beyond the
    list's length. *)
Definition page_num_of (metadata : GroundingMetadata)
  (support : GroundingSupport) : Answer (option Z) :=
  match grounding_chunk_indices support with
  | Some (chunk_idx :: _) =>
      match grounding_chunks metadata with
      | Missing => Returns None
      | IsNone => Throws no_len
      | Has chunks =>
          if chunk_idx <? Z.of_nat (List.length chunks) then
            match getitem chunks chunk_idx with
            | Returns chunk =>
                Returns (match page_number chunk with
                         | Has page => Some page
                         | IsNone | Missing => None
                         end)
            | Throws e => Throws e
            end
          else Returns None
      end
  | Some [] | None => Returns None
  end.

(** [segment.text if hasattr(segment, 'text') else ""], where [segment]
    may be [None] (which has no [text]). *)
Definition cited_text_of (segment : option Segment) : option string :=
  match segment with
  | Some segment =>
      match seg_text segment with
      | Has t => Some t
      | IsNone => None
      | Missing => Some ""
      end
  | None => Some ""
  end.

(** One turn of the loop [for support in metadata.grounding_supports]:
    a support that has a [segment] attribute appends one citation, unless
    looking up its page raises. *)
Definition citation_step (metadata : GroundingMetadata)
  (citations : list Citation) (support : GroundingSupport)
  : Answer (list Citation) :=
  let append segment :=
    let cited_text := cited_text_of segment in
    match page_num_of metadata support with
    | Returns page_num =>
        Returns (citations ++ [ {| cit_text := cited_text;
                                   cit_page_number := page_num;
                                   confidence := default_confidence |} ])
    | Throws e => Throws e
    end in
  match segment support with
  | Has segment => append (Some segment)
  | IsNone => append None
  | Missing => Returns citations
  end.

(** A [for] loop whose body may raise: the first exception ends it. *)
Fixpoint for_each {A B} (body : B -> A -> Answer B) (l : list A) (acc : B)
  : Answer B :=
  match l with
  | [] => Returns acc
  | x :: rest =>
      match body acc x with
      | Returns acc' => for_each body rest acc'
      | Throws e => Throws e
      end
  end.

(** "Parse citations from grounding metadata": the first candidate's
    metadata only, and nothing when candidates or metadata are missing or
    empty or the metadata has no [grounding_supports]; iterating over a
    [grounding_supports] that holds [None] raises. *)
Definition extract_citations (response : Response) : Answer (list Citation) :=
  match candidates response with
  | Some (candidate :: _) =>
      match grounding_metadata candidate with
      | Some metadata =>
          match grounding_supports metadata with
          | Has supports => for_each (citation_step metadata) supports []
          | IsNone => Throws not_iterable
          | Missing => Returns []
          end
      | None => Returns []
      end
  | Some [] | None => Returns []
  end.

(** [response.text if response.text else "No answer generated"]. *)
Definition answer_of (response : Response) : string :=
  match text response with
  | Some t => if truthy_str (Some t) then t else no_answer
  | None => no_answer
  end.

Definition query_model : string := "gemini-2.5-flash".

(** The body of the [try] block of [query_with_citations]. *)
Definition query_body (c : Client)
  (document_id file_search_store_id query : string) : M State QueryResult :=
  (response <-
     remote (EvGenerateContent query_model file_search_store_id query)
       (fun h => generate_content c h query_model file_search_store_id query) ;;
   let answer := answer_of response in
   citations <- lift_answer (extract_citations response) ;;
   ret {| document_id := document_id;
          answer := answer;
          citations := citations |})%py.

Definition query_with_citations
  (document_id file_search_store_id query : string) : M State QueryResult :=
  fun s =>
    match client s with
    | None => raise unavailable s
    | Some c =>
        try_except (query_body c document_id file_search_store_id query)
          (fun e => raise ("Failed to query with citations: " +:+ e)) s
    end.

(** [get_store_id]: [self.store_mappings.get(document_id)]. *)
Definition get_store_id (s : State) (document_id : string) : option string :=
  store_mappings s !! document_id.

(** *** Reading a trace *)

(** The seconds slept in a stretch of the trace. *)
Fixpoint sleep_total (events : list Event) : Z :=
  match events with
  | [] => 0
  | EvSleep seconds :: rest => seconds + sleep_total rest
  | _ :: rest => sleep_total rest
  end.

(** The number of polls of an operation handle in a stretch of the trace. *)
Fixpoint poll_count (events : list Event) : nat :=
  match events with
  | [] => 0
  | EvOperationsGet _ :: rest => S (poll_count rest)
  | _ :: rest => poll_count rest
  end.

(** Every sleep lasts [poll_interval] and is followed at once by a poll,
    and there is no poll but after such a sleep. *)
Fixpoint well_paced (events : list Event) : bool :=
  match events with
  | [] => true
  | EvSleep seconds :: EvOperationsGet _ :: rest =>
      (seconds =? poll_interval) && well_paced rest
  | EvSleep _ :: _ => false
  | EvOperationsGet _ :: _ => false
  | _ :: rest => well_paced rest
  end.

(** Whether the remote call recorded as [e], made after [history], was
    answered with an exception. *)
Definition answer_failed (c : Client) (history : list Event) (e : Event)
  : bool :=
  match e with
  | EvCreateStore display_name =>
      throws (file_search_stores_create c history display_name)
  | EvUpload file store_name display_name =>
      throws (upload_to_file_search_store c history file store_name
                display_name)
  | EvOperationsGet operation => throws (operations_get c history operation)
  | EvGenerateContent model store_name contents =>
      throws (generate_content c history model store_name contents)
  | EvSleep _ => false
  end.

(** Whether the remote call recorded as [e], made after [history], gave
    an operation handle that reports completion. *)
Definition answer_done (c : Client) (history : list Event) (e : Event)
  : bool :=
  match e with
  | EvUpload file store_name display_name =>
      match upload_to_file_search_store c history file store_name
              display_name with
      | Returns operation => done operation
      | Throws _ => false
      end
  | EvOperationsGet operation =>
      match operations_get c history operation with
      | Returns operation' => done operation'
      | Throws _ => false
      end
  | _ => false
  end.

(** Whether some call among [events], made one after the other from
    [history] on, satisfies [test]. *)
Fixpoint some_call (test : list Event -> Event -> bool)
  (history events : list Event) : bool :=
  match events with
  | [] => false
  | e :: rest => test history e || some_call test (history ++ [e]) rest
  end.

End FileSearch.

(* ===================================================================== *)
(** ** The AI proxy: size check, rate limiter, provider fallback         *)
(* ===================================================================== *)

(** The proxy's code ([app/services/llm.py], [app/routers/ai.py]) is known
    here through its tests and the specification only; the definitions of
    this module follow the specification's wording. *)
Module Proxy.

(** Modelled from the spec: the provider identities of the absent
    [app/services/llm.py], "ordered by fallback priority". *)
Inductive ProviderIdentity : Type :=
| PrimaryProvider
| SecondaryProvider
| FurtherProvider (rank : nat).

(** Modelled from the spec: the operation kinds of the absent
    [app/routers/ai.py] (section 6 of the specification). *)
Inductive OperationKind : Type :=
| GeneratePico
| GenerateSummary
| ValidateField
| FindMetadata
| ExtractTables
| AnalyzeImage
| DeepAnalysis.

(** Modelled from the spec: the "text or image payload" of a request of
    the absent [app/routers/ai.py]. *)
Inductive Payload : Type :=
| TextPayload (pdf_text : string)
| ImagePayload (image_bytes : list Byte.byte).

(** Modelled from the spec: [GenerationRequest] of the absent
    [app/routers/ai.py]: "operation kind, text or image payload, auxiliary
    prompt, target document id". *)
Record GenerationRequest := {
  operation : OperationKind;
  payload : Payload;
  prompt : string;
  target_document : string
}.

(** Modelled from the spec: [GenerationOutcome] of the absent
    [app/services/llm.py]: "Success(raw text) | RetryableFailure(reason) |
    FatalFailure(reason)". *)
Inductive GenerationOutcome : Type :=
| Success (raw : string)
| RetryableFailure (reason : string)
| FatalFailure (reason : string).

(** Modelled from the spec: what one transport attempt of a provider of
    the absent [app/services/llm.py] gives: the model's text, or the
    backend's exception as "a normalized failure signal (string reason". *)
Inductive Reply : Type :=
| Text (raw : string)
| Failed (reason : string).

(** Modelled from the spec: a provider of the absent
    [app/services/llm.py]: the capability interface "generate_text(prompt)
    and generate_vision(prompt, image_bytes)", with "its own
    failure-signature classifier, injected at construction", which
    recognises the retryable signatures in a reason text. *)
Record Provider := {
  identity : ProviderIdentity;
  generate_text : string -> Reply;
  generate_vision : string -> list Byte.byte -> Reply;
  is_retryable : string -> bool
}.

(** [needle in reason]. *)
Definition contains (needle reason : string) : bool :=
  match String.index 0 needle reason with
  | Some _ => true
  | None => false
  end.

(** Modelled from the spec: the "string-sniffing" classifier of the absent
    [app/services/llm.py], "inspecting error message text for 429, quota,
    etc.": a reason is retryable when it holds one of the signatures. *)
Definition signature_classifier (signatures : list string) (reason : string)
  : bool :=
  existsb (fun signature => contains signature reason) signatures.

(** Modelled from the spec: the error taxonomy of the absent
    [app/routers/ai.py] (section 7), as far as a caller sees it. *)
Inductive ApiError : Type :=
| PayloadTooLarge
| RateLimited
| ProviderFatalFailure (reason : string)
| AllProvidersFailed
| ParseFailure.

(** Modelled from the spec: the status signals of the absent
    [app/routers/ai.py]: "413 if text exceeds 1MB, 500 if all providers
    exhausted, 422 if parse fails"; the tests expect 429 of a throttled
    call and 500 of a provider error. *)
Definition status_code (e : ApiError) : Z :=
  match e with
  | PayloadTooLarge => 413
  | RateLimited => 429
  | ProviderFatalFailure _ => 500
  | AllProvidersFailed => 500
  | ParseFailure => 422
  end.

(** Modelled from the spec: the byte ceiling of the absent
    [app/routers/ai.py], "1,048,576 bytes". *)
Definition max_payload_bytes : N := 1048576%N.

(** Modelled from the spec: the "payload size" in bytes that the absent
    [app/routers/ai.py] checks. *)
Definition payload_size (p : Payload) : N :=
  match p with
  | TextPayload pdf_text => N.of_nat (String.length pdf_text)
  | ImagePayload image_bytes => N.of_nat (List.length image_bytes)
  end.

(** Modelled from the spec: the rate limiter's configuration in the
    absent [app/routers/ai.py]: "capacity N (default 10) per fixed
    duration W (default 60s)". *)
Record Limits := { capacity : nat; duration : Z }.

Definition default_limits : Limits := {| capacity := 10; duration := 60 |}.

(** Modelled from the spec: the [RateLimitWindow] of the absent
    [app/routers/ai.py], a "per-caller sliding window of request
    timestamps" ([[]] for an unknown caller). *)
Definition window_of (windows : gmap string (list Z)) (caller : string)
  : list Z :=
  default [] (windows !! caller).

(** The timestamps of a window that lie within the trailing duration. *)
Definition recent (lim : Limits) (now : Z) (stamps : list Z) : list Z :=
  filter (fun t => now - t < duration lim) stamps.

(** The timestamps of a window that lie in the stretch of the duration
    that ends at [u]. *)
Definition within (lim : Limits) (u : Z) (stamps : list Z) : list Z :=
  filter (fun t => t <= u /\ u - t < duration lim) stamps.

(** Modelled from the spec: [admit(caller_id) -> bool] of the absent
    [app/routers/ai.py]: "record a timestamp on each admitted call; a call
    is admitted iff the count of timestamps for that caller within the
    trailing window duration is below the configured capacity. Rejected
    calls do not consume the budget". *)
Definition admission (lim : Limits) (caller : string) (now : Z)
  (windows : gmap string (list Z)) : bool * gmap string (list Z) :=
  let stamps := window_of windows caller in
  if bool_decide (List.length (recent lim now stamps) < capacity lim)%nat then
    (true, <[caller := (stamps ++ [now])%list]> windows)
  else (false, windows).

(** A caller's calls one after the other, at the given times. *)
Fixpoint admissions (lim : Limits) (caller : string) (times : list Z)
  (windows : gmap string (list Z)) : list bool * gmap string (list Z) :=
  match times with
  | [] => ([], windows)
  | now :: later =>
      let '(allowed, windows') := admission lim caller now windows in
      let '(rest, windows'') := admissions lim caller later windows' in
      (allowed :: rest, windows'')
  end.

(** Modelled from the spec: what the orchestrator of the absent
    [app/services/llm.py] surfaces: one successful attempt, a fatal
    failure, or "all providers failed". *)
Inductive Terminal : Type :=
| Answered (raw : string)
| Fatal (reason : string)
| Exhausted.

(** Modelled from the spec: the process-wide state of the absent
    [app/routers/ai.py]: the rate-limit windows, and the provider calls
    observed so far (oldest first), as a test's mock would count them. *)
Record ProxyState := {
  windows : gmap string (list Z);
  provider_calls : list ProviderIdentity
}.

(** Modelled from the spec: the order in which a request handler of the
    absent [app/routers/ai.py] runs its two entry checks, the rate limiter
    and the payload ceiling. *)
Inductive EntryOrder : Type :=
| LimiterFirst
| SizeFirst.

Section Handlers.

(** The parser and the prompt templates are not what is examined here. *)
Variable StructuredResult : Type.
Variable parse : OperationKind -> string -> option StructuredResult.
Variable build_prompt : GenerationRequest -> string.

(** Modelled from the spec: one attempt of the provider abstraction of
    the absent [app/services/llm.py], "exactly one attempt per call". *)
Definition call (p : Provider) (req : GenerationRequest) : Reply :=
  match payload req with
  | TextPayload _ => generate_text p (build_prompt req)
  | ImagePayload image_bytes => generate_vision p (build_prompt req) image_bytes
  end.

(** Modelled from the spec: the failure classification of the absent
    [app/services/llm.py]: retryable when the provider's classifier
    recognises the reason, and "ambiguous/unrecognized errors are treated
    as fatal". *)
Definition attempt (p : Provider) (req : GenerationRequest)
  : GenerationOutcome :=
  match call p req with
  | Text raw => Success raw
  | Failed reason =>
      if is_retryable p reason then RetryableFailure reason
      else FatalFailure reason
  end.

(** Modelled from the spec: the fallback orchestrator of the absent
    [app/services/llm.py]: "attempt the operation against the first; on
    RetryableFailure, attempt the next; on FatalFailure or after
    exhausting the list, surface a terminal failure". Every attempt is
    appended to the log of calls. *)
Fixpoint orchestrate (providers : list Provider) (req : GenerationRequest)
  (calls : list ProviderIdentity) : Terminal * list ProviderIdentity :=
  match providers with
  | [] => (Exhausted, calls)
  | p :: lower =>
      let calls' := calls ++ [identity p] in
      match attempt p req with
      | Success raw => (Answered raw, calls')
      | RetryableFailure _ => orchestrate lower req calls'
      | FatalFailure reason => (Fatal reason, calls')
      end
  end.

(** Modelled from the spec: the outcome of the structured response
    parser of the absent [app/services/llm.py] on a provider's raw text:
    "a typed result or a parse failure". *)
Definition parsed_output (op : OperationKind) (raw : string)
  : StructuredResult + ApiError :=
  match parse op raw with
  | Some result => inl result
  | None => inr ParseFailure
  end.

(** Modelled from the spec: what a request handler of the absent
    [app/routers/ai.py] does with a request that passed both entry
    checks: the orchestrator runs and its raw text "passes through the
    Structured Response Parser"; [windows'] holds the caller's new
    timestamp. *)
Definition serve (providers : list Provider) (req : GenerationRequest)
  (windows' : gmap string (list Z)) (st : ProxyState)
  : (StructuredResult + ApiError) * ProxyState :=
  let '(terminal, calls') :=
    orchestrate providers req (provider_calls st) in
  let st' := {| windows := windows'; provider_calls := calls' |} in
  match terminal with
  | Answered raw => (parsed_output (operation req) raw, st')
  | Fatal reason => (inr (ProviderFatalFailure reason), st')
  | Exhausted => (inr AllProvidersFailed, st')
  end.

(** Modelled from the spec: a request handler of the absent
    [app/routers/ai.py], with its two entry checks in either order. The
    specification has both "checked before any provider is contacted";
    its control flow names the rate limiter at the entry ("the Rate
    Limiter admits or rejects it. On admission, ...") and has the payload
    ceiling "enforced before provider dispatch", without saying which of
    the two a request meets first. With the limiter first, an admitted
    call has left its timestamp when its payload is then refused. *)
Definition handle_in (order : EntryOrder) (lim : Limits)
  (providers : list Provider) (caller : string) (now : Z)
  (req : GenerationRequest) (st : ProxyState)
  : (StructuredResult + ApiError) * ProxyState :=
  let oversized := (max_payload_bytes <? payload_size (payload req))%N in
  match order with
  | LimiterFirst =>
      match admission lim caller now (windows st) with
      | (false, _) => (inr RateLimited, st)
      | (true, windows') =>
          if oversized then
            (inr PayloadTooLarge,
             {| windows := windows'; provider_calls := provider_calls st |})
          else serve providers req windows' st
      end
  | SizeFirst =>
      if oversized then (inr PayloadTooLarge, st)
      else
        match admission lim caller now (windows st) with
        | (false, _) => (inr RateLimited, st)
        | (true, windows') => serve providers req windows' st
        end
  end.

(** Modelled from the spec: a request handler of the absent
    [app/routers/ai.py] in the order of the specification's control flow:
    "the Rate Limiter admits or rejects", then the payload ceiling is
    "enforced before provider dispatch", then the orchestrator and the
    parser. *)
Definition handle (lim : Limits) (providers : list Provider)
  (caller : string) (now : Z) (req : GenerationRequest) (st : ProxyState)
  : (StructuredResult + ApiError) * ProxyState :=
  handle_in LimiterFirst lim providers caller now req st.

End Handlers.

Arguments parsed_output {StructuredResult} parse op raw.
Arguments serve {StructuredResult} parse build_prompt providers req windows'
  st.
Arguments handle_in {StructuredResult} parse build_prompt order lim providers
  caller now req st.
Arguments handle {StructuredResult} parse build_prompt lim providers caller
  now req st.

End Proxy.

(* ===================================================================== *)
(** ** Concrete surroundings for the examples                            *)
(* ===================================================================== *)

Module Demo.
Import FileSearch.

(** The value of a character of the base64 alphabet. *)
Definition b64_value (c : ascii) : option N :=
  let n := N_of_ascii c in
  if ((65 <=? n) && (n <=? 90))%N then Some (n - 65)%N
  else if ((97 <=? n) && (n <=? 122))%N then Some (n - 71)%N
  else if ((48 <=? n) && (n <=? 57))%N then Some (n + 4)%N
  else if (n =? 43)%N then Some 62%N
  else if (n =? 47)%N then Some 63%N
  else None.

Definition byte_of (n : N) : list Byte.byte :=
  match Byte.of_N (n mod 256) with
  | Some b => [b]
  | None => []
  end.

(** Decoding of base64 text in canonical form (alphabet characters in
    groups of four, the last group padded with [=]); anything else is
    refused. On canonical text this is what [base64.b64decode] returns. *)
Fixpoint b64_groups (cs : list ascii) : Answer (list Byte.byte) :=
  match cs with
  | [] => Returns []
  | c1 :: c2 :: c3 :: c4 :: rest =>
      match b64_value c1, b64_value c2 with
      | Some v1, Some v2 =>
          let b1 := byte_of (v1 * 4 + v2 / 16) in
          match b64_value c3, b64_value c4 with
          | Some v3, Some v4 =>
              match b64_groups rest with
              | Returns bytes =>
                  Returns (b1 ++ byte_of (v2 * 16 + v3 / 4)
                         ++ byte_of (v3 * 64 + v4) ++ bytes)
              | other => other
              end
          | Some v3, None =>
              if Ascii.eqb c4 "="%char && bool_decide (rest = [])
              then Returns (b1 ++ byte_of (v2 * 16 + v3 / 4))
              else Throws "Incorrect padding"
          | None, _ =>
              if Ascii.eqb c3 "="%char && Ascii.eqb c4 "="%char
                 && bool_decide (rest = [])
              then Returns b1
              else Throws "Incorrect padding"
          end
      | _, _ => Throws "Incorrect padding"
      end
  | _ => Throws "Incorrect padding"
  end%N.

Definition runtime : Runtime :=
  {| b64decode := fun s => b64_groups (list_ascii_of_string s);
     mkstemp := fun _ => "/tmp/tmpq7x2_k1v.pdf" |}.

(** The data URI of a (very short) PDF: [%PDF-1.4]. *)
Definition pdf_data_uri : string := "data:application/pdf;base64,JVBERi0xLjQ=".

Definition pending : Operation := {| op_name := "operations/upload-1"; done := false |}.
Definition finished : Operation := {| op_name := "operations/upload-1"; done := true |}.

Definition store_of (display_name : string) : FileSearchStore :=
  {| name := "fileSearchStores/" +:+ display_name |}.

Definition empty_response : Response := {| text := None; candidates := None |}.

(** A remote service on which the upload of [slow.pdf] is never indexed,
    and every other upload is indexed by the second poll. *)
Definition slow_client : Client :=
  {| file_search_stores_create := fun _ display_name => Returns (store_of display_name);
     upload_to_file_search_store := fun _ _ _ display_name =>
       Returns {| op_name := display_name; done := false |};
     operations_get := fun history operation =>
       if String.eqb (op_name operation) "slow.pdf" then Returns operation
       else Returns {| op_name := op_name operation;
                  done := bool_decide (4 <= List.length history)%nat |};
     generate_content := fun _ _ _ _ => Returns empty_response |}.

(** A remote service that refuses to create a store. *)
Definition refusing_client : Client :=
  {| file_search_stores_create := fun _ _ => Throws "503 Service Unavailable";
     upload_to_file_search_store := fun _ _ _ _ => Returns pending;
     operations_get := fun _ _ => Returns finished;
     generate_content := fun _ _ _ _ => Throws "503 Service Unavailable" |}.

(** A grounded answer with four supports: one resolved to a page, one
    whose chunk has no page, one without a segment, and one whose segment
    has no text and which names no chunk. *)
Definition grounded_response : Response :=
  {| text := Some "Mortality was lower in the surgical group.";
     candidates := Some [
       {| grounding_metadata := Some
            {| grounding_supports := Has [
                 {| segment := Has {| seg_text := Has "15% vs 35%" |};
                    grounding_chunk_indices := Some [1] |};
                 {| segment := Has {| seg_text := Has "150 patients" |};
                    grounding_chunk_indices := Some [0] |};
                 {| segment := Missing;
                    grounding_chunk_indices := None |};
                 {| segment := Has {| seg_text := Missing |};
                    grounding_chunk_indices := Some [] |} ];
               grounding_chunks := Has [
                 {| page_number := Missing |};
                 {| page_number := Has 4 |} ] |} |} ] |}.

(** A grounded answer whose supports are uneven: a segment that holds
    [None] with an index counted from the end, a segment whose text holds
    [None] with an index past the end, a support without a segment (whose
    index is never followed), and a segment that names no chunk. *)
Definition uneven_response : Response :=
  {| text := Some "Mortality was lower in the surgical group.";
     candidates := Some [
       {| grounding_metadata := Some
            {| grounding_supports := Has [
                 {| segment := IsNone;
                    grounding_chunk_indices := Some [-1] |};
                 {| segment := Has {| seg_text := IsNone |};
                    grounding_chunk_indices := Some [7] |};
                 {| segment := Missing;
                    grounding_chunk_indices := Some [-9] |};
                 {| segment := Has {| seg_text := Has "p < 0.001" |};
                    grounding_chunk_indices := None |} ];
               grounding_chunks := Has [
                 {| page_number := Missing |};
                 {| page_number := Has 4 |} ] |} |} ] |}.

(** An answer without text whose grounding metadata is there with its
    attributes holding [None], as an object whose optional fields were
    left unset has them. *)
Definition unset_metadata_response : Response :=
  {| text := None;
     candidates := Some [
       {| grounding_metadata := Some
            {| grounding_supports := IsNone;
               grounding_chunks := IsNone |} |} ] |}.

(** A grounded answer whose one support has a segment that holds [None]
    and names no chunk, so that the chunk list is never looked at. *)
Definition bare_support_response : Response :=
  {| text := Some "The trial enrolled 150 patients.";
     candidates := Some [
       {| grounding_metadata := Some
            {| grounding_supports := Has [
                 {| segment := IsNone;
                    grounding_chunk_indices := None |} ];
               grounding_chunks := IsNone |} |} ] |}.


Definition answering_client (response : Response) : Client :=
  {| file_search_stores_create := fun _ display_name => Returns (store_of display_name);
     upload_to_file_search_store := fun _ _ _ _ => Returns finished;
     operations_get := fun _ operation => Returns operation;
     generate_content := fun _ _ _ _ => Returns response |}.

End Demo.


Module ProxyDemo.
Import Proxy.

(** Signatures of retryable failures: throttling, a transient server
    error, an exhausted quota. *)
Definition retryable_signatures : list string := ["429"; "503"; "quota"].

(** The primary provider, throttled. *)
Definition throttled_primary : Provider :=
  {| identity := PrimaryProvider;
     generate_text := fun _ => Failed "429 rate limit exceeded";
     generate_vision := fun _ _ => Failed "429 rate limit exceeded";
     is_retryable := signature_classifier retryable_signatures |}.

(** The primary provider, refusing the request for a reason that no
    signature covers. *)
Definition refusing_primary : Provider :=
  {| identity := PrimaryProvider;
     generate_text := fun _ => Failed "400 request payload is malformed";
     generate_vision := fun _ _ => Failed "400 request payload is malformed";
     is_retryable := signature_classifier retryable_signatures |}.

(** The secondary provider, answering. *)
Definition answering_secondary : Provider :=
  {| identity := SecondaryProvider;
     generate_text := fun _ => Text "Test summary from Claude";
     generate_vision := fun _ _ => Text "Test summary from Claude";
     is_retryable := signature_classifier retryable_signatures |}.

(** A parser for the plain-text operations: the raw text, if any. *)
Definition plain_text (op : OperationKind) (raw : string) : option string :=
  match raw with
  | EmptyString => None
  | _ => Some raw
  end.

Definition prompt_of (req : GenerationRequest) : string :=
  match payload req with
  | TextPayload pdf_text => prompt req +:+ pdf_text
  | ImagePayload _ => prompt req
  end.

Definition summary_request : GenerationRequest :=
  {| operation := GenerateSummary;
     payload := TextPayload "We enrolled 150 patients with cerebellar infarction.";
     prompt := "Summarise the study: ";
     target_document := "test-doc" |}.


Definition fresh : ProxyState := {| windows := ∅; provider_calls := [] |}.

End ProxyDemo.

(* ===================================================================== *)
(** ** More Python: splitting, prefixes, dictionaries in insertion order *)
(* ===================================================================== *)

(** [s.split(',')]: the pieces of [s] between its commas, empty pieces
    included; never an empty list. *)
Fixpoint split_comma (s : string) : list string :=
  match s with
  | EmptyString => [EmptyString]
  | String c rest =>
      if Ascii.eqb c ","%char then EmptyString :: split_comma rest
      else
        match split_comma rest with
        | piece :: pieces => String c piece :: pieces
        | [] => [String c EmptyString]
        end
  end.

(** Python truthiness of a string: [''] is false. *)
Definition nonempty (s : string) : bool :=
  match s with
  | EmptyString => false
  | String _ _ => true
  end.

(** A Python [dict] with string keys, as the list of its items in
    insertion order. *)
Module PyDict.
Section Dict.

Context {V : Type}.

(** [d.get(k)]. *)
Fixpoint get (d : list (string * V)) (k : string) : option V :=
  match d with
  | [] => None
  | (k', v) :: rest => if String.eqb k' k then Some v else get rest k
  end.

(** [k in d]. *)
Definition mem (d : list (string * V)) (k : string) : bool :=
  match get d k with
  | Some _ => true
  | None => false
  end.

(** [d[k] = v]: a key already there keeps its place and takes the new
    value, a new key goes to the end. *)
Fixpoint set (d : list (string * V)) (k : string) (v : V)
  : list (string * V) :=
  match d with
  | [] => [(k, v)]
  | (k', v') :: rest =>
      if String.eqb k' k then (k, v) :: rest else (k', v') :: set rest k v
  end.

(** What [d.pop(k)] leaves in [d]. *)
Fixpoint remove (d : list (string * V)) (k : string) : list (string * V) :=
  match d with
  | [] => []
  | (k', v') :: rest =>
      if String.eqb k' k then remove rest k else (k', v') :: remove rest k
  end.

(** [list(d.values())]. *)
Definition values (d : list (string * V)) : list V := map snd d.

(** [list(d.keys())]. *)
Definition keys (d : list (string * V)) : list string := map fst d.

End Dict.
End PyDict.

(* ===================================================================== *)
(** ** The service object at start-up ([FileSearchService.__init__])     *)
(* ===================================================================== *)

Module Construction.
Import FileSearch.

(** [FileSearchService.__init__], given the module's [HAS_FILE_SEARCH]
    (whether the SDK could be imported) and what [genai.Client(api_key=...)]
    gives. The result is the service and the new [HAS_FILE_SEARCH]. *)
Definition construct (has_file_search : bool) (new_client : Answer Client)
  : State * bool :=
  if has_file_search then
    match new_client with
    | Returns c => (init (Some c), true)
    | Throws _ => (init None, false)
    end
  else (init None, false).

End Construction.

(* ===================================================================== *)
(** ** The data store as the routers and the start-up use it             *)
(* ===================================================================== *)

Module Store.

Record User := {
  user_id : string;
  email : string;
  password_hash : string;
  created_at : Z;
  updated_at : Z
}.

Record PDFLibraryItem := {
  id : string;
  title : string;
  filename : string;
  pdf_data : string;
  total_pages : Z;
  description : option string;
  item_created_at : Z
}.

(** The parts of [db] that [main.py] and [routers/pdf_library.py] touch.
    The library is listed in insertion order. *)
Record Db := {
  users : gmap string User;
  users_by_email : gmap string string;
  pdf_library : list (string * PDFLibraryItem)
}.

Definition set_pdf_library
  (f : list (string * PDFLibraryItem) -> list (string * PDFLibraryItem))
  (db : Db) : Db :=
  {| users := users db; users_by_email := users_by_email db;
     pdf_library := f (pdf_library db) |}.

Definition empty : Db :=
  {| users := ∅; users_by_email := ∅; pdf_library := [] |}.

End Store.

(* ===================================================================== *)
(** ** The PDF library endpoints ([routers/pdf_library.py])              *)
(* ===================================================================== *)

(** The endpoints are modelled as they run once [get_current_user] has
    let the caller through; they make no other use of the user. *)
Module Library.
Import Store.

(** What an endpoint gives: its response model, or [HTTPException]. *)
Inductive Http (A : Type) : Type :=
| Respond (body : A)
| HTTPException (status_code : Z) (detail : string).
Arguments Respond {A} body.
Arguments HTTPException {A} status_code detail.

Record PDFLibraryUploadRequest := {
  req_title : string;
  req_filename : string;
  req_pdf_data : string;
  req_total_pages : Z;
  req_description : option string
}.

(** The item without its PDF data. *)
Record PDFLibraryItemResponse := {
  res_id : string;
  res_title : string;
  res_filename : string;
  res_total_pages : Z;
  res_description : option string
}.

Record PDFLibraryItemDetail := {
  det_id : string;
  det_title : string;
  det_filename : string;
  det_pdf_data : string;
  det_total_pages : Z;
  det_description : option string
}.

Definition data_uri_prefix : string := "data:application/pdf;base64,".

Definition response_of (item : PDFLibraryItem) : PDFLibraryItemResponse :=
  {| res_id := id item; res_title := title item;
     res_filename := filename item; res_total_pages := total_pages item;
     res_description := description item |}.

Definition detail_of (item : PDFLibraryItem) : PDFLibraryItemDetail :=
  {| det_id := id item; det_title := title item;
     det_filename := filename item; det_pdf_data := pdf_data item;
     det_total_pages := total_pages item;
     det_description := description item |}.

(** [list_library_pdfs]. *)
Definition list_library_pdfs (db : Db) : list PDFLibraryItemResponse :=
  map response_of (PyDict.values (pdf_library db)).

(** [get_library_pdf]. *)
Definition get_library_pdf (library_id : string) (db : Db)
  : Http PDFLibraryItemDetail :=
  match PyDict.get (pdf_library db) library_id with
  | Some item => Respond (detail_of item)
  | None => HTTPException 404 "PDF not found in library"
  end.

(** [upload_pdf_to_library]; [generated] is what [db.generate_id()] gives
    (asked for before the data is looked at) and [now] the clock. *)
Definition upload_pdf_to_library (request : PDFLibraryUploadRequest)
  (generated : string) (now : Z) (db : Db)
  : Http PDFLibraryItemResponse * Db :=
  let library_id := "library_" +:+ generated in
  if negb (String.prefix data_uri_prefix (req_pdf_data request)) then
    (HTTPException 400 "PDF data must be base64-encoded with data URI prefix",
     db)
  else
    let library_item :=
      {| id := library_id; title := req_title request;
         filename := req_filename request;
         pdf_data := req_pdf_data request;
         total_pages := req_total_pages request;
         description := req_description request;
         item_created_at := now |} in
    (Respond (response_of library_item),
     set_pdf_library (fun d => PyDict.set d library_id library_item) db).

(** [delete_library_pdf]; the response is its [message]. *)
Definition delete_library_pdf (library_id : string) (db : Db)
  : Http string * Db :=
  match PyDict.get (pdf_library db) library_id with
  | None => (HTTPException 404 "PDF not found in library", db)
  | Some deleted_item =>
      (Respond ("Deleted " +:+ title deleted_item +:+ " from library"),
       set_pdf_library (fun d => PyDict.remove d library_id) db)
  end.

(** What the endpoints and the start-up keep of the library: no key
    twice (it is a [dict]), and every item filed under its own [id]. *)
Definition consistent (db : Db) : Prop :=
  NoDup (PyDict.keys (pdf_library db))
  /\ Forall (fun entry => id (snd entry) = fst entry) (pdf_library db).

End Library.

(* ===================================================================== *)
(** ** The application's start-up and CORS set-up ([main.py])            *)
(* ===================================================================== *)

Module Main.
Import Store.

(** What the start-up takes from outside: the id that [db.generate_id()]
    gives, [bcrypt.hashpw] with its fresh salt, the two readings of the
    clock, the files of the [public] folder by name, and
    [base64.b64encode]. *)
Record Outside := {
  generated_id : string;
  hashpw : string -> string;
  now_user : Z;
  now_library : Z;
  public_files : gmap string (list Byte.byte);
  b64encode : list Byte.byte -> string
}.

Definition demo_email : string := "demo@example.com".
Definition demo_password : string := "demo123".

(** An entry of [pdfs_to_add]. *)
Record PdfInfo := {
  info_filename : string;
  info_id : string;
  info_title : string;
  info_description : option string;
  info_total_pages : Z
}.

Definition pdfs_to_add : list PdfInfo :=
  [ {| info_filename := "Kim2016.pdf";
       info_id := "sample_kim2016";
       info_title := "Kim et al. 2016 - Cerebellar Infarction Study";
       info_description :=
         Some "Clinical study on cerebellar infarction treatment outcomes";
       info_total_pages := 9 |} ].

(** The first half of [startup_event]: the demo user. *)
Definition create_demo_user (out : Outside) (db : Db) : Db :=
  match users_by_email db !! demo_email with
  | Some _ => db
  | None =>
      let user :=
        {| user_id := generated_id out; email := demo_email;
           password_hash := hashpw out demo_password;
           created_at := now_user out; updated_at := now_user out |} in
      {| users := <[generated_id out := user]> (users db);
         users_by_email := <[demo_email := generated_id out]> (users_by_email db);
         pdf_library := pdf_library db |}
  end.

(** One turn of the loop [for pdf_info in pdfs_to_add]. *)
Definition add_library_pdf (out : Outside)
  (library : list (string * PDFLibraryItem)) (pdf_info : PdfInfo)
  : list (string * PDFLibraryItem) :=
  match public_files out !! info_filename pdf_info with
  | Some content =>
      let library_item :=
        {| id := info_id pdf_info; title := info_title pdf_info;
           filename := info_filename pdf_info;
           pdf_data := "data:application/pdf;base64," +:+ b64encode out content;
           total_pages := info_total_pages pdf_info;
           description := info_description pdf_info;
           item_created_at := now_library out |} in
      PyDict.set library (id library_item) library_item
  | None => library
  end.

(** The second half of [startup_event]: the library, filled only when it
    is empty. *)
Definition init_pdf_library (out : Outside) (db : Db) : Db :=
  match pdf_library db with
  | [] => set_pdf_library
            (fun library => fold_left (add_library_pdf out) pdfs_to_add library)
            db
  | _ :: _ => db
  end.

(** [startup_event]. *)
Definition startup_event (out : Outside) (db : Db) : Db :=
  init_pdf_library out (create_demo_user out db).

(** *** CORS origins *)

Definition localhost_origins : list string :=
  [ "http://localhost:5173"; "http://localhost:5000";
    "http://127.0.0.1:5173"; "http://127.0.0.1:5000" ].

Section Cors.

(** [str.strip]. *)
Variable strip : string -> string.

(** The process environment, [os.environ]. *)
Variable environ : gmap string string.

(** [os.getenv("CORS_ORIGINS", "")]. *)
Definition cors_origins_env : string := default "" (environ !! "CORS_ORIGINS").

(** The origins that [allowed_origins] holds before the fixed ones are
    added. *)
Definition configured_origins : list string :=
  if nonempty cors_origins_env then
    if String.eqb cors_origins_env "*" then ["*"]
    else
      map strip
        (filter (fun origin => nonempty (strip origin) = true)
           (split_comma cors_origins_env))
  else [].

(** [replit_url]: set when [REPL_SLUG] and [REPL_OWNER] are both set and
    not empty. *)
Definition replit_url : option string :=
  match environ !! "REPL_SLUG", environ !! "REPL_OWNER" with
  | Some slug, Some owner =>
      if nonempty slug && nonempty owner
      then Some ("https://" +:+ slug +:+ "." +:+ owner +:+ ".repl.co")
      else None
  | _, _ => None
  end.

(** [allowed_origins] as it stands when the middleware is added. *)
Definition allowed_origins : list string :=
  configured_origins ++ localhost_origins ++ option_list replit_url.

(** The [allow_origins] argument of [app.add_middleware]. *)
Definition allow_origins : list string :=
  if bool_decide (allowed_origins = ["*"]) then ["*"] else allowed_origins.

(** The [allow_origin_regex] argument of [app.add_middleware]. *)
Definition allow_origin_regex : option string :=
  if String.eqb cors_origins_env "*" then Some "https://.*\.replit\.dev"
  else None.

End Cors.

End Main.

Module LibraryDemo.
Import Store Library.

Definition request : PDFLibraryUploadRequest :=
  {| req_title := "Kim et al. 2016";
     req_filename := "Kim2016.pdf";
     req_pdf_data := "data:application/pdf;base64,JVBERi0xLjQ=";
     req_total_pages := 9;
     req_description := None |}.

(** A request whose data lacks the data URI prefix. *)
Definition bare_request : PDFLibraryUploadRequest :=
  {| req_title := "Kim et al. 2016";
     req_filename := "Kim2016.pdf";
     req_pdf_data := "JVBERi0xLjQ=";
     req_total_pages := 9;
     req_description := None |}.

(** The store after one accepted upload. *)
Definition one_pdf : Db :=
  snd (upload_pdf_to_library request "7f3a" 1700000000 Store.empty).

End LibraryDemo.

Module MainDemo.
Import Store Main.

(** [s.strip()] for text that is blank only by spaces: the leading
    spaces go, then the trailing ones. *)
Fixpoint lstrip_spaces (s : string) : string :=
  match s with
  | String c rest => if Ascii.eqb c " "%char then lstrip_spaces rest else s
  | EmptyString => EmptyString
  end.

Fixpoint rstrip_spaces (s : string) : string :=
  match s with
  | EmptyString => EmptyString
  | String c rest =>
      match rstrip_spaces rest with
      | EmptyString =>
          if Ascii.eqb c " "%char then EmptyString else String c EmptyString
      | kept => String c kept
      end
  end.

Definition strip_spaces (s : string) : string :=
  rstrip_spaces (lstrip_spaces s).

(** The character of the base64 alphabet for a value below 64. *)
Definition b64_char (n : N) : ascii :=
  ascii_of_N
    (if (n <? 26)%N then n + 65
     else if (n <? 52)%N then n + 71
     else if (n <? 62)%N then n - 4
     else if (n =? 62)%N then 43 else 47)%N.

(** Base64 with padding, three bytes to four characters. *)
Fixpoint b64_text (bytes : list Byte.byte) : string :=
  match bytes with
  | [] => EmptyString
  | [b1] =>
      let n1 := Byte.to_N b1 in
      String (b64_char (n1 / 4))
        (String (b64_char (n1 mod 4 * 16)) "==")
  | [b1; b2] =>
      let n1 := Byte.to_N b1 in
      let n2 := Byte.to_N b2 in
      String (b64_char (n1 / 4))
        (String (b64_char (n1 mod 4 * 16 + n2 / 16))
           (String (b64_char (n2 mod 16 * 4)) "="))
  | b1 :: b2 :: b3 :: rest =>
      let n1 := Byte.to_N b1 in
      let n2 := Byte.to_N b2 in
      let n3 := Byte.to_N b3 in
      String (b64_char (n1 / 4))
        (String (b64_char (n1 mod 4 * 16 + n2 / 16))
           (String (b64_char (n2 mod 16 * 4 + n3 / 64))
              (String (b64_char (n3 mod 64)) (b64_text rest))))
  end%N.

Definition outside : Outside :=
  {| generated_id := "u-001";
     hashpw := fun password => "$2b$12$" +:+ password;
     now_user := 1700000000;
     now_library := 1700000001;
     public_files :=
       {[ "Kim2016.pdf" := [Byte.x25; Byte.x50; Byte.x44; Byte.x46] ]};
     b64encode := b64_text |}.

(** The same surroundings some time later, the PDF gone from disk. *)
Definition later : Outside :=
  {| generated_id := "u-002";
     hashpw := fun password => "$2b$12$other" +:+ password;
     now_user := 1700009000;
     now_library := 1700009001;
     public_files := ∅;
     b64encode := b64_text |}.

Definition environ : gmap string string :=
  {[ "CORS_ORIGINS" := "https://a.example, https://b.example ,," ]}.

Definition wildcard_environ : gmap string string :=
  <[ "REPL_OWNER" := "rech" ]>
    (<[ "REPL_SLUG" := "extractor" ]> {[ "CORS_ORIGINS" := "*" ]}).

Definition mixed_environ : gmap string string :=
  {[ "CORS_ORIGINS" := "*,https://a.example" ]}.

End MainDemo.

(* ===================================================================== *)
(** ** The citation of one support, described without the loop           *)
(* ===================================================================== *)

Import FileSearch.

(** What an attribute holds, if it is there and holds something. *)
Definition attr_value {A} (a : Attr A) : option A :=
  match a with
  | Has v => Some v
  | IsNone | Missing => None
  end.

(** The element that an index points at in a list: counted from the
    front, or from the end when it is negative. *)
Definition pointed_at {A} (l : list A) (i : Z) : option A :=
  if 0 <=? i then l !! Z.to_nat i
  else if 0 <=? i + Z.of_nat (List.length l)
       then l !! Z.to_nat (i + Z.of_nat (List.length l))
       else None.

(** The page number described for one support, "following the segment's
    chunk index into the metadata's chunk list, reading a page attribute
    if the chunk exposes one": that of the chunk which the first chunk
    index points at, when there is such a chunk and it has a page. *)
Definition resolved_page (metadata : GroundingMetadata)
  (support : GroundingSupport) : option Z :=
  indices ← grounding_chunk_indices support;
  chunk_idx ← head indices;
  chunks ← attr_value (grounding_chunks metadata);
  chunk ← pointed_at chunks chunk_idx;
  attr_value (page_number chunk).

(** The cited text of a support: the text of its segment, [None] when
    that text holds [None], and the empty string when the segment holds
    [None] or has no text. *)
Definition described_text (support : GroundingSupport) : option string :=
  match segment support with
  | Has {| seg_text := Has t |} => Some t
  | Has {| seg_text := IsNone |} => None
  | Has {| seg_text := Missing |} | IsNone | Missing => Some ""
  end.

(** The citation described for one support: its cited text, its resolved
    page and the default confidence. A support without a [segment]
    attribute gives none. *)
Definition described_citation (metadata : GroundingMetadata)
  (support : GroundingSupport) : option Citation :=
  match segment support with
  | Missing => None
  | IsNone | Has _ =>
      Some {| cit_text := described_text support;
              cit_page_number := resolved_page metadata support;
              confidence := default_confidence |}
  end.

(** The supports on which the page cannot be looked up, with the
    exception's message: a support with a [segment] attribute and a first
    chunk index, when the metadata's chunk list holds [None] or the index
    is negative beyond the list's length. *)
Definition lookup_fault (metadata : GroundingMetadata)
  (support : GroundingSupport) : option string :=
  match segment support, grounding_chunk_indices support with
  | Missing, _ | _, None | _, Some [] => None
  | _, Some (chunk_idx :: _) =>
      match grounding_chunks metadata with
      | IsNone => Some no_len
      | Has chunks =>
          if chunk_idx <? - Z.of_nat (List.length chunks)
          then Some index_out_of_range else None
      | Missing => None
      end
  end.

(* ===================================================================== *)
(** * Properties                                                         *)
(* ===================================================================== *)

(** ** Citations *)

Lemma getitem_pointed_at {A} (l : list A) (i : Z) :
  i < Z.of_nat (List.length l) ->
  getitem l i
  = (if i <? - Z.of_nat (List.length l) then Throws index_out_of_range
     else match pointed_at l i with
          | Some x => Returns x
          | None => Throws index_out_of_range
          end).
Proof.
  intros Hlt. unfold getitem, pointed_at.
  destruct (i <? 0) eqn:Hneg.
  - apply Z.ltb_lt in Hneg.
    rewrite (proj2 (Z.leb_gt 0 i)) by lia.
    destruct (i <? - Z.of_nat (List.length l)) eqn:Hfar.
    + apply Z.ltb_lt in Hfar.
      by rewrite (proj2 (Z.leb_gt 0 (i + Z.of_nat (List.length l)))) by lia.
    + apply Z.ltb_ge in Hfar.
      rewrite (proj2 (Z.leb_le 0 (i + Z.of_nat (List.length l)))) by lia.
      by rewrite (proj2 (Z.ltb_lt _ _)) by lia.
  - apply Z.ltb_ge in Hneg.
    rewrite (proj2 (Z.leb_le 0 i)) by lia.
    rewrite (proj2 (Z.ltb_lt i _)) by lia.
    by rewrite (proj2 (Z.ltb_ge i (- Z.of_nat (List.length l)))) by lia.
Qed.

Lemma pointed_at_in_range {A} (l : list A) (i : Z) :
  - Z.of_nat (List.length l) <= i < Z.of_nat (List.length l) ->
  is_Some (pointed_at l i).
Proof.
  intros Hin. unfold pointed_at. destruct (0 <=? i) eqn:Hpos.
  - apply Z.leb_le in Hpos. apply lookup_lt_is_Some. lia.
  - apply Z.leb_gt in Hpos.
    rewrite (proj2 (Z.leb_le 0 (i + Z.of_nat (List.length l)))) by lia.
    apply lookup_lt_is_Some. lia.
Qed.

Lemma pointed_at_past_end {A} (l : list A) (i : Z) :
  Z.of_nat (List.length l) <= i -> pointed_at l i = None.
Proof.
  intros Hge. unfold pointed_at.
  rewrite (proj2 (Z.leb_le 0 i)) by lia. apply lookup_ge_None. lia.
Qed.

(** Looking up the page of a support: the exception of [lookup_fault] if
    there is one, the resolved page otherwise. *)
Lemma page_num_of_described metadata support :
  segment support <> Missing ->
  page_num_of metadata support
  = match lookup_fault metadata support with
    | Some e => Throws e
    | None => Returns (resolved_page metadata support)
    end.
Proof.
  intros Hseg. unfold page_num_of, lookup_fault, resolved_page.
  destruct (grounding_chunk_indices support) as [[|chunk_idx rest]|];
    simpl; [by destruct (segment support)| |by destruct (segment support)].
  assert (Hgoal :
    match grounding_chunks metadata with
    | Missing => Returns None
    | IsNone => Throws no_len
    | Has chunks =>
        if chunk_idx <? Z.of_nat (List.length chunks) then
          match getitem chunks chunk_idx with
          | Returns chunk =>
              Returns match page_number chunk with
                      | Has page => Some page
                      | _ => None
                      end
          | Throws e => Throws e
          end
        else Returns None
    end
    = match
        match grounding_chunks metadata with
        | IsNone => Some no_len
        | Has chunks =>
            if chunk_idx <? - Z.of_nat (List.length chunks)
            then Some index_out_of_range else None
        | Missing => None
        end
      with
      | Some e => Throws e
      | None =>
          Returns (chunks ← attr_value (grounding_chunks metadata);
                   chunk ← pointed_at chunks chunk_idx;
                   attr_value (page_number chunk))
      end).
  { destruct (grounding_chunks metadata) as [| |chunks]; simpl; [done|done|].
    destruct (chunk_idx <? Z.of_nat (List.length chunks)) eqn:Hlt.
    - apply Z.ltb_lt in Hlt. rewrite getitem_pointed_at by done.
      destruct (chunk_idx <? - Z.of_nat (List.length chunks)) eqn:Hfar;
        [done|].
      apply Z.ltb_ge in Hfar.
      destruct (pointed_at_in_range chunks chunk_idx) as [chunk ->]; [lia|].
      simpl. by destruct (page_number chunk).
    - apply Z.ltb_ge in Hlt.
      rewrite (proj2 (Z.ltb_ge chunk_idx (- Z.of_nat (List.length chunks))))
        by lia.
      by rewrite pointed_at_past_end. }
  destruct (segment support); [done|exact Hgoal|exact Hgoal].
Qed.

(** One turn of the loop: the exception of [lookup_fault] if there is
    one, the described citation appended (if there is one) otherwise. *)
Lemma citation_step_described metadata citations support :
  citation_step metadata citations support
  = match lookup_fault metadata support with
    | Some e => Throws e
    | None =>
        Returns (citations ++ option_list (described_citation metadata support))
    end.
Proof.
  unfold citation_step, described_citation.
  destruct (segment support) as [| |seg] eqn:Hseg.
  - unfold lookup_fault. rewrite Hseg. simpl. by rewrite app_nil_r.
  - rewrite page_num_of_described by (rewrite Hseg; done).
    destruct (lookup_fault metadata support); [done|].
    simpl. unfold described_text. by rewrite Hseg.
  - rewrite page_num_of_described by (rewrite Hseg; done).
    destruct (lookup_fault metadata support); [done|].
    simpl. unfold described_text, cited_text_of. rewrite Hseg.
    by destruct seg as [[| |t]].
Qed.



Lemma citation_step_confidence metadata citations support citations' :
  citation_step metadata citations support = Returns citations' ->
  Forall (fun c => confidence c = default_confidence) citations ->
  Forall (fun c => confidence c = default_confidence) citations'.
Proof.
  rewrite citation_step_described.
  destruct (lookup_fault metadata support); [done|].
  intros [= <-] Hall. apply Forall_app. split; [done|].
  unfold described_citation.
  destruct (segment support); simpl; repeat constructor.
Qed.

Lemma extract_citations_confidence response citations :
  extract_citations response = Returns citations ->
  Forall (fun c => confidence c = default_confidence) citations.
Proof.
  unfold extract_citations.
  destruct (candidates response) as [[|candidate others]|];
    try (intros [= <-]; constructor).
  destruct (grounding_metadata candidate) as [metadata|];
    try (intros [= <-]; constructor).
  destruct (grounding_supports metadata) as [| |supports];
    [intros [= <-]; constructor|done|].
  assert (Hgen : forall acc,
    for_each (citation_step metadata) supports acc = Returns citations ->
    Forall (fun c => confidence c = default_confidence) acc ->
    Forall (fun c => confidence c = default_confidence) citations).
  { induction supports as [|support supports IH]; intros acc; simpl.
    - by intros [= <-].
    - destruct (citation_step metadata acc support) as [acc'|] eqn:Hstep;
        [|done].
      intros Hrest Hacc. apply (IH acc' Hrest).
      by apply (citation_step_confidence metadata acc support). }
  intros Hrun. apply (Hgen [] Hrun). constructor.
Qed.

(** What a query returns, once the client and its answer are known. *)
Lemma query_with_client c doc store query s :
  client s = Some c ->
  query_with_citations doc store query s
  = (match generate_content c (trace s) query_model store query with
     | Returns response =>
         match extract_citations response with
         | Returns citations =>
             Ok {| document_id := doc;
                   answer := answer_of response;
                   citations := citations |}
         | Throws e => Raise ("Failed to query with citations: " +:+ e)
         end
     | Throws e => Raise ("Failed to query with citations: " +:+ e)
     end,
     log (EvGenerateContent query_model store query) s).
Proof.
  intros Hc.
  unfold query_with_citations, try_except, query_body, bind, remote,
    lift_answer.
  rewrite Hc.
  destruct (generate_content c (trace s) query_model store query)
    as [response|]; simpl; [|done].
  by destruct (extract_citations response).
Qed.

(** C7. Every citation in the result of [query_with_citations] carries
    the confidence 0.95, whatever the provider answered. *)
Theorem citation_confidence_is_fixed doc store query s result s' :
  query_with_citations doc store query s = (Ok result, s') ->
  Forall (fun c => confidence c = 0.95%Q) (citations result).
Proof.
  destruct (client s) as [c|] eqn:Hc.
  - rewrite (query_with_client c) by done.
    destruct (generate_content c (trace s) query_model store query)
      as [response|]; try discriminate.
    destruct (extract_citations response) as [cs|] eqn:Hcs; try discriminate.
    intros [= <- _]. simpl. by apply (extract_citations_confidence response).
  - unfold query_with_citations. rewrite Hc. discriminate.
Qed.

Lemma citation_confidence_is_fixed_witness :
  exists result s',
    query_with_citations "doc-1" "fileSearchStores/x" "mortality?"
      (init (Some (Demo.answering_client Demo.grounded_response)))
    = (Ok result, s')
    /\ List.length (citations result) = 3%nat
    /\ Forall (fun c => confidence c = 0.95%Q) (citations result).
Proof.
  eexists _, _. split; [reflexivity|]. split; [reflexivity|].
  exact (citation_confidence_is_fixed "doc-1" "fileSearchStores/x"
           "mortality?"
           (init (Some (Demo.answering_client Demo.grounded_response)))
           _ _ eq_refl).
Defined.







(** ** No indexing client *)

(** C9. Without a client, [upload_pdf_to_file_search] and
    [query_with_citations] raise the unavailability error at once: the
    state is left as it was, so no remote call was made, no file written
    and no answer produced. *)
Theorem no_client_fails_fast rt doc pdf_base64 filename store query s :
  client s = None ->
  upload_pdf_to_file_search rt doc pdf_base64 filename s
  = (Raise unavailable, s)
  /\ query_with_citations doc store query s = (Raise unavailable, s).
Proof.
  intros Hc. unfold upload_pdf_to_file_search, query_with_citations.
  by rewrite Hc.
Qed.

Lemma no_client_fails_fast_witness :
  upload_pdf_to_file_search Demo.runtime "doc-1" Demo.pdf_data_uri "a.pdf"
    (init None)
  = (Raise unavailable, init None)
  /\ query_with_citations "doc-1" "fileSearchStores/x" "mortality?" (init None)
     = (Raise unavailable, init None).
Proof.
  exact (no_client_fails_fast Demo.runtime "doc-1" Demo.pdf_data_uri "a.pdf"
           "fileSearchStores/x" "mortality?" (init None) eq_refl).
Defined.

(** ** Registration: the polling loop *)

Lemma add_trace_nil s : add_trace [] s = s.
Proof. destruct s. unfold add_trace. simpl. by rewrite app_nil_r. Qed.

Lemma add_trace_app l1 l2 s :
  add_trace l2 (add_trace l1 s) = add_trace (l1 ++ l2) s.
Proof. unfold add_trace. simpl. by rewrite app_assoc. Qed.

Lemma some_call_app test history l1 l2 :
  some_call test history (l1 ++ l2)
  = some_call test history l1 || some_call test (history ++ l1) l2.
Proof.
  revert history. induction l1 as [|e l1 IH]; intros history; simpl.
  - by rewrite app_nil_r.
  - rewrite IH, <- app_assoc. simpl. by rewrite orb_assoc.
Qed.

(** What a run of the polling loop does: it ends, it only adds rounds of
    one sleep and one poll to the trace, it waits no longer than up to
    [max_wait], it raises exactly when a poll raised, and it hands back
    an unfinished operation only once the whole wait has elapsed. *)
Lemma poll_run c fuel : forall operation k s,
  0 <= k -> 12 <= k + Z.of_nat fuel ->
  exists r rounds,
    poll fuel c operation (5 * k) s = (r, add_trace rounds s)
    /\ well_paced rounds = true
    /\ sleep_total rounds = 5 * Z.of_nat (poll_count rounds)
    /\ 5 * k + sleep_total rounds <= Z.max (5 * k) max_wait
    /\ match r with
       | Ok operation' =>
           some_call (answer_failed c) (trace s) rounds = false
           /\ (done operation' = true ->
               done operation = true
               \/ some_call (answer_done c) (trace s) rounds = true)
           /\ (done operation' = false ->
               max_wait <= 5 * k + sleep_total rounds)
       | Raise _ => some_call (answer_failed c) (trace s) rounds = true
       | OutOfFuel => False
       end.
Proof.
  induction fuel as [|fuel IH]; intros operation k s Hpos Hfuel; simpl;
    destruct (negb (done operation) && (5 * k <? max_wait)) eqn:Hguard.
  - apply andb_true_iff in Hguard as [_ Hlt]. unfold max_wait in *. lia.
  - exists (Ok operation), []. rewrite add_trace_nil. simpl.
    split; [done|]. split; [done|]. split; [done|]. split; [lia|].
    split; [done|]. split; [auto|].
    intros Hd. rewrite Hd in Hguard. simpl in Hguard. lia.
  - apply andb_true_iff in Hguard as [Hdone Hlt].
    apply negb_true_iff in Hdone. unfold max_wait in Hlt.
    unfold bind, sleep, modify, remote, log. simpl.
    replace (5 * k + poll_interval) with (5 * (k + 1))
      by (unfold poll_interval; lia).
    destruct (operations_get c (trace s ++ [EvSleep poll_interval]) operation)
      as [operation'|msg] eqn:Hget; simpl.
    + destruct (IH operation' (k + 1)
                  (add_trace [EvOperationsGet operation]
                     (add_trace [EvSleep poll_interval] s)))
        as (r & rounds & Hrun & Hpaced & Hsleep & Hbound & Hr); try lia.
      exists r, (EvSleep poll_interval :: EvOperationsGet operation :: rounds).
      rewrite Hrun, !add_trace_app. unfold poll_interval, max_wait in *. simpl.
      split; [done|]. split; [done|]. split; [lia|]. split; [lia|].
      simpl in Hr.
      destruct r as [op''|m|]; [|by rewrite Hget; simpl|done].
      rewrite Hget. simpl. destruct Hr as (Hnofail & Hdn & Hnd).
      split; [done|]. split.
      * intros Hd''. right.
        destruct (done operation') eqn:Hd'; [done|]. simpl.
        destruct (Hdn Hd'') as [?|?]; [congruence|done].
      * intros Hd''. specialize (Hnd Hd''). lia.
    + exists (Raise msg), [EvSleep poll_interval; EvOperationsGet operation].
      rewrite add_trace_app. simpl. unfold poll_interval, max_wait in *.
      split; [done|]. split; [done|]. split; [done|]. split; [lia|].
      by rewrite Hget.
  - exists (Ok operation), []. rewrite add_trace_nil. simpl.
    split; [done|]. split; [done|]. split; [done|]. split; [lia|].
    split; [done|]. split; [auto|].
    intros Hd. rewrite Hd in Hguard. simpl in Hguard. lia.
Qed.

(** ** Registration: one call of [upload_pdf_to_file_search] *)

Local Arguments poll : simpl never.

(** Everything a registration does, read off its result and final state. *)
Lemma upload_run rt c doc pdf_base64 filename s r s' :
  client s = Some c ->
  upload_pdf_to_file_search rt doc pdf_base64 filename s = (r, s') ->
  exists new,
    trace s' = trace s ++ new
    /\ client s' = client s
    /\ r <> OutOfFuel
    /\ well_paced new = true
    /\ sleep_total new = 5 * Z.of_nat (poll_count new)
    /\ sleep_total new <= max_wait
    /\ (some_call (answer_failed c) (trace s) new = true -> is_raise r = true)
    /\ (some_call (answer_done c) (trace s) new = false -> is_raise r = true)
    /\ store_mappings s'
       = match r with
         | Ok v => <[doc := file_search_store_id v]> (store_mappings s)
         | _ => store_mappings s
         end
    /\ files s'
       = match b64decode rt (encoded_part pdf_base64) with
         | Throws _ => files s
         | Returns pdf_data =>
             let path := mkstemp rt (files s) in
             if some_call (answer_failed c) (trace s) new
             then <[path := pdf_data]> (files s)
             else delete path (<[path := pdf_data]> (files s))
         end
    /\ (throws (b64decode rt (encoded_part pdf_base64)) = false ->
        some_call (answer_failed c) (trace s) new = false ->
        some_call (answer_done c) (trace s) new = false ->
        r = Raise ("Failed to upload PDF to File Search: " +:+ timed_out)
        /\ sleep_total new = max_wait).
Proof.
  intros Hc Hrun. unfold upload_pdf_to_file_search in Hrun. rewrite Hc in Hrun.
  unfold try_except, upload_body, bind, lift_answer, named_temporary_file,
    remote in Hrun.
  destruct (b64decode rt (encoded_part pdf_base64)) as [pdf_data|msg] eqn:Hdec;
    simpl in Hrun.
  2:{ injection Hrun as <- <-. exists []. rewrite app_nil_r. simpl.
      unfold max_wait. repeat split; try done. }
  set (path := mkstemp rt (files s)) in *.
  set (create := EvCreateStore ("clinical_doc_" +:+ doc)) in *.
  destruct (file_search_stores_create c (trace s) ("clinical_doc_" +:+ doc))
    as [store|msg] eqn:Hcreate; simpl in Hrun.
  2:{ injection Hrun as <- <-. exists [create]. simpl.
      rewrite Hcreate. simpl. unfold max_wait. repeat split; try done. }
  set (upload := EvUpload path (name store) filename) in *.
  destruct (upload_to_file_search_store c (trace s ++ [create]) path
              (name store) filename) as [operation|msg] eqn:Hupload;
    simpl in Hrun.
  2:{ injection Hrun as <- <-. exists [create; upload]. simpl.
      rewrite Hcreate, Hupload. simpl. rewrite <- app_assoc.
      unfold max_wait. repeat split; try done. }
  destruct (poll_run c poll_fuel operation 0
              (log upload (log create (set_files <[path:=pdf_data]> s))))
    as (r1 & rounds & Hpoll & Hpaced & Hsleep & Hbound & Hr1);
    [lia | unfold poll_fuel; lia |].
  change (5 * 0) with 0 in *. rewrite Hpoll in Hrun.
  exists (create :: upload :: rounds).
  assert (Hfailed : some_call (answer_failed c) (trace s)
                      (create :: upload :: rounds)
                    = some_call (answer_failed c)
                        ((trace s ++ [create]) ++ [upload]) rounds).
  { simpl. by rewrite Hcreate, Hupload. }
  assert (Hdone : some_call (answer_done c) (trace s)
                    (create :: upload :: rounds)
                  = done operation
                    || some_call (answer_done c)
                         ((trace s ++ [create]) ++ [upload]) rounds).
  { simpl. by rewrite Hupload. }
  rewrite Hfailed, Hdone. simpl in Hr1.
  unfold max_wait in *.
  destruct r1 as [operation'|msg|]; [|injection Hrun as <- <-|done].
  - destruct Hr1 as (Hnofail & Hdn & Hnd). rewrite Hnofail.
    destruct (done operation') eqn:Hd'; simpl in Hrun;
      injection Hrun as <- <-; simpl.
    + assert (Hsome : done operation
                      || some_call (answer_done c)
                           ((trace s ++ [create]) ++ [upload]) rounds
                      = true).
      { destruct (Hdn eq_refl) as [-> | ->]; [done|apply orb_true_r]. }
      rewrite Hsome. split; [by rewrite <- !app_assoc|].
      repeat split; try done; lia.
    + split; [by rewrite <- !app_assoc|].
      repeat split; try done; try lia.
  - simpl. rewrite Hr1. split; [by rewrite <- !app_assoc|].
    repeat split; try done; lia.
Qed.

Lemma upload_without_client rt doc pdf_base64 filename s :
  client s = None ->
  upload_pdf_to_file_search rt doc pdf_base64 filename s
  = (Raise unavailable, s).
Proof. intros Hc. unfold upload_pdf_to_file_search. by rewrite Hc. Qed.

(** C5. A registration ends; it polls only after a
    sleep of 5 seconds each time, and sleeps at most 60 seconds in all;
    it raises when a remote call raised and when no operation handle it
    obtained reported completion (in which case, no call having raised,
    it has slept the whole 60 seconds and raises the time-out); and when
    it raises, the store mapping is what it was before the call, so that
    [get_store_id] answers as before: with no handle for a document that
    had none. *)
Theorem failed_registration_records_no_mapping
  rt doc pdf_base64 filename s r s' :
  upload_pdf_to_file_search rt doc pdf_base64 filename s = (r, s') ->
  exists new,
    trace s' = trace s ++ new
    /\ r <> OutOfFuel
    /\ well_paced new = true
    /\ sleep_total new = poll_interval * Z.of_nat (poll_count new)
    /\ sleep_total new <= max_wait
    /\ (forall c, client s = Some c ->
        some_call (answer_failed c) (trace s) new = true ->
        is_raise r = true)
    /\ (forall c, client s = Some c ->
        some_call (answer_done c) (trace s) new = false ->
        is_raise r = true)
    /\ (forall c, client s = Some c ->
        throws (b64decode rt (encoded_part pdf_base64)) = false ->
        some_call (answer_failed c) (trace s) new = false ->
        some_call (answer_done c) (trace s) new = false ->
        r = Raise ("Failed to upload PDF to File Search: " +:+ timed_out)
        /\ sleep_total new = max_wait)
    /\ (is_raise r = true ->
        store_mappings s' = store_mappings s
        /\ get_store_id s' doc = get_store_id s doc
        /\ (get_store_id s doc = None -> get_store_id s' doc = None)).
Proof.
  intros Hrun. destruct (client s) as [c|] eqn:Hc.
  - destruct (upload_run rt c doc pdf_base64 filename s r s' Hc Hrun)
      as (new & Htrace & _ & Hfuel & Hpaced & Hsleep & Hbound & Hfail & Hdone
          & Hmap & _ & Htimeout).
    exists new. do 5 (split; [done|]). split; [|split; [|split]].
    + intros c' [= <-]. exact Hfail.
    + intros c' [= <-]. exact Hdone.
    + intros c' [= <-]. exact Htimeout.
    + unfold get_store_id. destruct r; try done. by rewrite Hmap.
  - rewrite upload_without_client in Hrun by done. injection Hrun as <- <-.
    exists []. rewrite app_nil_r. unfold max_wait. repeat split; try done.
Qed.

Lemma failed_registration_records_no_mapping_witness :
  exists s' new,
    upload_pdf_to_file_search Demo.runtime "doc-1" Demo.pdf_data_uri "slow.pdf"
      (init (Some Demo.slow_client))
    = (Raise "Failed to upload PDF to File Search: File upload timed out after 60 seconds",
       s')
    /\ trace s' = new
    /\ sleep_total new = 60
    /\ poll_count new = 12%nat
    /\ get_store_id s' "doc-1" = None.
Proof.
  eexists _, _. split; [vm_compute; reflexivity|].
  destruct (failed_registration_records_no_mapping Demo.runtime "doc-1"
              Demo.pdf_data_uri "slow.pdf" (init (Some Demo.slow_client))
              _ _ eq_refl)
    as (new & _ & _ & _ & _ & _ & _ & _ & _ & Hkeep).
  split; [reflexivity|]. split; [reflexivity|]. split; [reflexivity|].
  apply Hkeep; reflexivity.
Defined.

(** Registering a document a second time is outside what the
    specification covers ("re-upload is out of scope"); the code then
    keeps the mapping as the specification has it, "immutable
    thereafter": the second registration times out, and [get_store_id]
    still returns the handle that the first one recorded. *)
Lemma failed_reregistration_keeps_old_handle :
  let s1 := snd (upload_pdf_to_file_search Demo.runtime "doc-1"
                   Demo.pdf_data_uri "good.pdf"
                   (init (Some Demo.slow_client))) in
  let '(r, s2) := upload_pdf_to_file_search Demo.runtime "doc-1"
                    Demo.pdf_data_uri "slow.pdf" s1 in
  r = Raise "Failed to upload PDF to File Search: File upload timed out after 60 seconds"
  /\ sleep_total (drop (List.length (trace s1)) (trace s2)) = 60
  /\ get_store_id s2 "doc-1" = Some "fileSearchStores/clinical_doc_doc-1"
  /\ get_store_id s2 "doc-1" <> None.
Proof. vm_compute. repeat split; discriminate. Qed.

(** ** Registration: the temporary file *)

(** C6 fails on the code: when a remote call of the registration raises
    after the temporary file was written, no mapping is recorded and the
    exception is raised, but the temporary file is still there. *)
Theorem remote_error_leaves_temp_file
  rt c doc pdf_base64 filename s r s' pdf_data new :
  client s = Some c ->
  b64decode rt (encoded_part pdf_base64) = Returns pdf_data ->
  upload_pdf_to_file_search rt doc pdf_base64 filename s = (r, s') ->
  trace s' = trace s ++ new ->
  some_call (answer_failed c) (trace s) new = true ->
  is_raise r = true
  /\ store_mappings s' = store_mappings s
  /\ files s' !! mkstemp rt (files s) = Some pdf_data.
Proof.
  intros Hc Hdec Hrun Htrace Hfailed.
  destruct (upload_run rt c doc pdf_base64 filename s r s' Hc Hrun)
    as (new' & Htrace' & _ & _ & _ & _ & _ & Hfail & _ & Hmap & Hfiles & _).
  rewrite Htrace in Htrace'. apply app_inv_head in Htrace' as <-.
  specialize (Hfail Hfailed). split; [done|]. split.
  - destruct r; done.
  - rewrite Hfiles, Hdec. simpl. rewrite Hfailed. apply lookup_insert_eq.
Qed.

Lemma remote_error_leaves_temp_file_witness :
  exists r s',
    upload_pdf_to_file_search Demo.runtime "doc-1" Demo.pdf_data_uri "a.pdf"
      (init (Some Demo.refusing_client)) = (r, s')
    /\ r = Raise "Failed to upload PDF to File Search: 503 Service Unavailable"
    /\ get_store_id s' "doc-1" = None
    /\ files s' !! "/tmp/tmpq7x2_k1v.pdf"
       = Some [Byte.x25; Byte.x50; Byte.x44; Byte.x46;
               Byte.x2d; Byte.x31; Byte.x2e; Byte.x34].
Proof.
  eexists _, _. split; [vm_compute; reflexivity|].
  split; [reflexivity|]. split; [reflexivity|].
  exact (proj2 (proj2 (remote_error_leaves_temp_file Demo.runtime
           Demo.refusing_client "doc-1" Demo.pdf_data_uri "a.pdf"
           (init (Some Demo.refusing_client)) _ _ _
           [EvCreateStore "clinical_doc_doc-1"]
           eq_refl eq_refl eq_refl eq_refl eq_refl))).
Defined.

(** The part of C6 that the code does keep: a registration in which no
    remote call raised (it succeeded, or it timed out) has removed its
    temporary file, and the temporary directory is as it was before. *)
Lemma temp_file_released_without_remote_error
  rt c doc pdf_base64 filename s r s' new :
  client s = Some c ->
  files s !! mkstemp rt (files s) = None ->
  upload_pdf_to_file_search rt doc pdf_base64 filename s = (r, s') ->
  trace s' = trace s ++ new ->
  some_call (answer_failed c) (trace s) new = false ->
  files s' = files s.
Proof.
  intros Hc Hfresh Hrun Htrace Hfailed.
  destruct (upload_run rt c doc pdf_base64 filename s r s' Hc Hrun)
    as (new' & Htrace' & _ & _ & _ & _ & _ & _ & _ & _ & Hfiles & _).
  rewrite Htrace in Htrace'. apply app_inv_head in Htrace' as <-.
  rewrite Hfiles. destruct (b64decode rt (encoded_part pdf_base64)); [|done].
  simpl. rewrite Hfailed. rewrite delete_insert_eq. by apply delete_id.
Qed.

(** ** The AI proxy *)

Section ProxyProperties.
Import Proxy.

Context {StructuredResult : Type}.
Variable parse : OperationKind -> string -> option StructuredResult.
Variable build_prompt : GenerationRequest -> string.

Lemma handle_in_served order lim providers caller now req st windows' :
  (payload_size (payload req) <= max_payload_bytes)%N ->
  admission lim caller now (windows st) = (true, windows') ->
  handle_in parse build_prompt order lim providers caller now req st
  = serve parse build_prompt providers req windows' st.
Proof.
  intros Hsize Hadm. unfold handle_in.
  rewrite (proj2 (N.ltb_ge _ _)) by done. rewrite Hadm.
  by destruct order.
Qed.

Lemma handle_served lim providers caller now req st windows' :
  (payload_size (payload req) <= max_payload_bytes)%N ->
  admission lim caller now (windows st) = (true, windows') ->
  handle parse build_prompt lim providers caller now req st
  = let '(terminal, calls') :=
      orchestrate build_prompt providers req (provider_calls st) in
    (match terminal with
     | Answered raw => parsed_output parse (operation req) raw
     | Fatal reason => inr (ProviderFatalFailure reason)
     | Exhausted => inr AllProvidersFailed
     end,
     {| windows := windows'; provider_calls := calls' |}).
Proof.
  intros Hsize Hadm. unfold handle.
  rewrite (handle_in_served _ _ _ _ _ _ _ windows') by done. unfold serve.
  destruct (orchestrate build_prompt providers req (provider_calls st))
    as [terminal calls'].
  by destruct terminal.
Qed.

(** C1. Whatever the operation, when the primary provider fails with a
    reason that its classifier recognises as retryable and the secondary
    provider answers, an admitted request of allowed size yields the
    secondary's parsed output, and exactly two provider calls are
    observed: the primary, then the secondary. *)
Theorem fallback_returns_secondary_output
  lim primary secondary lower caller now req st reason raw :
  (payload_size (payload req) <= max_payload_bytes)%N ->
  fst (admission lim caller now (windows st)) = true ->
  call build_prompt primary req = Failed reason ->
  is_retryable primary reason = true ->
  call build_prompt secondary req = Text raw ->
  fst (handle parse build_prompt lim (primary :: secondary :: lower)
         caller now req st)
  = parsed_output parse (operation req) raw
  /\ provider_calls
       (snd (handle parse build_prompt lim (primary :: secondary :: lower)
               caller now req st))
     = provider_calls st ++ [identity primary; identity secondary].
Proof.
  intros Hsize Hadm Hfirst Hretry Hsecond.
  destruct (admission lim caller now (windows st)) as [ok windows'] eqn:Hw.
  simpl in Hadm. subst ok.
  rewrite (handle_served _ _ _ _ _ _ windows') by done.
  simpl. unfold attempt. rewrite Hfirst, Hretry, Hsecond. simpl.
  by rewrite <- app_assoc.
Qed.

(** C2. Whatever the operation, when the primary provider fails with a
    reason that its classifier does not recognise as retryable (a fatal
    or an unknown error), the request ends with that fatal failure, not
    with "all providers failed", and the primary's is the only provider
    call observed: the secondary is not tried. *)
Theorem fatal_failure_stops_fallback
  lim primary lower caller now req st reason :
  (payload_size (payload req) <= max_payload_bytes)%N ->
  fst (admission lim caller now (windows st)) = true ->
  call build_prompt primary req = Failed reason ->
  is_retryable primary reason = false ->
  fst (handle parse build_prompt lim (primary :: lower) caller now req st)
  = inr (ProviderFatalFailure reason)
  /\ fst (handle parse build_prompt lim (primary :: lower) caller now req st)
     <> inr AllProvidersFailed
  /\ provider_calls
       (snd (handle parse build_prompt lim (primary :: lower)
               caller now req st))
     = provider_calls st ++ [identity primary].
Proof.
  intros Hsize Hadm Hfirst Hfatal.
  destruct (admission lim caller now (windows st)) as [ok windows'] eqn:Hw.
  simpl in Hadm. subst ok.
  rewrite (handle_served _ _ _ _ _ _ windows') by done.
  simpl. unfold attempt. rewrite Hfirst, Hfatal. simpl.
  repeat split; done.
Qed.


End ProxyProperties.

Lemma fallback_returns_secondary_output_witness :
  fst (Proxy.handle ProxyDemo.plain_text ProxyDemo.prompt_of
         Proxy.default_limits
         [ProxyDemo.throttled_primary; ProxyDemo.answering_secondary]
         "user-1" 1000 ProxyDemo.summary_request ProxyDemo.fresh)
  = inl "Test summary from Claude"
  /\ Proxy.provider_calls
       (snd (Proxy.handle ProxyDemo.plain_text ProxyDemo.prompt_of
               Proxy.default_limits
               [ProxyDemo.throttled_primary; ProxyDemo.answering_secondary]
               "user-1" 1000 ProxyDemo.summary_request ProxyDemo.fresh))
     = [Proxy.PrimaryProvider; Proxy.SecondaryProvider].
Proof.
  exact (fallback_returns_secondary_output ProxyDemo.plain_text
           ProxyDemo.prompt_of Proxy.default_limits
           ProxyDemo.throttled_primary ProxyDemo.answering_secondary []
           "user-1" 1000 ProxyDemo.summary_request ProxyDemo.fresh
           "429 rate limit exceeded" "Test summary from Claude"
           ltac:(vm_compute; discriminate) eq_refl eq_refl eq_refl eq_refl).
Defined.

Lemma fatal_failure_stops_fallback_witness :
  fst (Proxy.handle ProxyDemo.plain_text ProxyDemo.prompt_of
         Proxy.default_limits
         [ProxyDemo.refusing_primary; ProxyDemo.answering_secondary]
         "user-1" 1000 ProxyDemo.summary_request ProxyDemo.fresh)
  = inr (Proxy.ProviderFatalFailure "400 request payload is malformed")
  /\ Proxy.provider_calls
       (snd (Proxy.handle ProxyDemo.plain_text ProxyDemo.prompt_of
               Proxy.default_limits
               [ProxyDemo.refusing_primary; ProxyDemo.answering_secondary]
               "user-1" 1000 ProxyDemo.summary_request ProxyDemo.fresh))
     = [Proxy.PrimaryProvider].
Proof.
  pose proof (fatal_failure_stops_fallback ProxyDemo.plain_text
                ProxyDemo.prompt_of Proxy.default_limits
                ProxyDemo.refusing_primary [ProxyDemo.answering_secondary]
                "user-1" 1000 ProxyDemo.summary_request ProxyDemo.fresh
                "400 request payload is malformed"
                ltac:(vm_compute; discriminate) eq_refl eq_refl eq_refl)
    as (Hresult & _ & Hcalls).
  split; [exact Hresult | exact Hcalls].
Defined.




(** ** The rate limiter *)

Section RateLimiter.
Import Proxy.

Variable lim : Limits.

Lemma recent_all now stamps :
  Forall (fun t => now - t < duration lim) stamps ->
  recent lim now stamps = stamps.
Proof.
  unfold recent. induction 1 as [|t stamps Ht _ IH]; [done|].
  rewrite filter_cons_True by done. by rewrite IH.
Qed.

Lemma recent_none now stamps :
  Forall (fun t => duration lim <= now - t) stamps ->
  recent lim now stamps = [].
Proof.
  unfold recent. induction 1 as [|t stamps Ht _ IH]; [done|].
  rewrite filter_cons_False by lia. exact IH.
Qed.

Lemma recent_app now l1 l2 :
  recent lim now (l1 ++ l2) = recent lim now l1 ++ recent lim now l2.
Proof. apply filter_app. Qed.

Lemma recent_length now stamps :
  (List.length (recent lim now stamps) <= List.length stamps)%nat.
Proof. apply length_filter. Qed.

Lemma window_of_insert ws caller stamps :
  window_of (<[caller := stamps]> ws) caller = stamps.
Proof. unfold window_of. by rewrite lookup_insert_eq. Qed.

(** A burst of calls that fits in what is left of the window is served
    whole, and each call leaves its timestamp. *)
Lemma admissions_burst caller : forall times ws,
  (forall now, now ∈ times ->
     (List.length (recent lim now (window_of ws caller)) + List.length times
      <= capacity lim)%nat) ->
  exists ws',
    admissions lim caller times ws = (repeat true (List.length times), ws')
    /\ window_of ws' caller = window_of ws caller ++ times
    /\ (forall other, other <> caller -> ws' !! other = ws !! other).
Proof.
  induction times as [|now later IH]; intros ws Hroom.
  - exists ws. simpl. by rewrite app_nil_r.
  - assert (Hnow := Hroom now (list_elem_of_here _ _)). simpl in Hnow.
    destruct (IH (<[caller := window_of ws caller ++ [now]]> ws))
      as (ws' & Hrun & Hwin & Hother).
    { intros now' Hin. rewrite window_of_insert, recent_app, length_app.
      pose proof (Hroom now' (list_elem_of_further _ _ _ Hin)) as Hnow'.
      pose proof (recent_length now' [now]). simpl in *. lia. }
    exists ws'. simpl. unfold admission at 1.
    rewrite bool_decide_eq_true_2 by lia. rewrite Hrun.
    split; [done|]. split.
    + rewrite Hwin, window_of_insert, <- app_assoc. done.
    + intros other Hne. rewrite Hother by done. by rewrite lookup_insert_ne.
Qed.

End RateLimiter.

(** C3. With the default capacity 10 and duration 60: a caller whose
    earlier timestamps have all left the window makes ten calls, none
    before the first; all ten are admitted and recorded. A further call
    less than 60 after the first is rejected: the rate limiter leaves
    the windows as they were, and the handler answers [RateLimited]
    with status 429, which no other error carries, and leaves the whole
    state as it was. A call 60 or more after the first is admitted
    again. *)
Theorem rate_limit_window_of_ten caller ws t0 later t :
  Forall (fun u => 60 <= t0 - u) (Proxy.window_of ws caller) ->
  List.length later = 9%nat ->
  Forall (fun ti => t0 <= ti) later ->
  t - t0 < 60 ->
  exists ws1,
    Proxy.admissions Proxy.default_limits caller (t0 :: later) ws
    = (repeat true 10, ws1)
    /\ Proxy.window_of ws1 caller = Proxy.window_of ws caller ++ t0 :: later
    /\ Proxy.admission Proxy.default_limits caller t ws1 = (false, ws1)
    /\ (forall (StructuredResult : Type)
          (parse : Proxy.OperationKind -> string -> option StructuredResult)
          build_prompt providers req st,
          Proxy.windows st = ws1 ->
          (Proxy.payload_size (Proxy.payload req)
           <= Proxy.max_payload_bytes)%N ->
          Proxy.handle parse build_prompt Proxy.default_limits providers
            caller t req st
          = (inr Proxy.RateLimited, st))
    /\ Proxy.status_code Proxy.RateLimited = 429
    /\ (forall e, Proxy.status_code e = 429 -> e = Proxy.RateLimited)
    /\ (forall t', 60 <= t' - t0 ->
          fst (Proxy.admission Proxy.default_limits caller t' ws1) = true).
Proof.
  intros Hold Hlen Hlater Hnear.
  assert (Hnone : forall now, t0 <= now ->
            Proxy.recent Proxy.default_limits now (Proxy.window_of ws caller)
            = []).
  { intros now Hge. apply recent_none. simpl.
    eapply Forall_impl; [exact Hold|]. simpl. intros u Hu. lia. }
  destruct (admissions_burst Proxy.default_limits caller (t0 :: later) ws)
    as (ws1 & Hrun & Hwin & _).
  { intros now Hin. rewrite Hnone.
    - simpl. lia.
    - apply elem_of_cons in Hin as [->|Hin]; [lia|].
      by apply (proj1 (Forall_forall _ _) Hlater). }
  simpl in Hrun. rewrite Hlen in Hrun.
  assert (Hrejected :
    Proxy.admission Proxy.default_limits caller t ws1 = (false, ws1)).
  { unfold Proxy.admission. rewrite Hwin, recent_app.
    rewrite (recent_all _ t (t0 :: later)).
    - rewrite bool_decide_eq_false_2; [done|].
      rewrite length_app. simpl. lia.
    - simpl. constructor; [lia|].
      eapply Forall_impl; [exact Hlater|]. simpl. intros ti Hti. lia. }
  exists ws1. split; [exact Hrun|]. split; [exact Hwin|].
  split; [exact Hrejected|]. split; [|split; [done|split]].
  - intros SR parse build_prompt providers req st Hws Hsize.
    unfold Proxy.handle, Proxy.handle_in. by rewrite Hws, Hrejected.
  - intros e He. destruct e; simpl in He; try done.
  - intros t' Hfar. unfold Proxy.admission.
    rewrite Hwin, recent_app, Hnone by lia.
    change (t0 :: later) with ([t0] ++ later).
    rewrite recent_app, (recent_none _ t' [t0]).
    + rewrite bool_decide_eq_true_2; [done|].
      pose proof (recent_length Proxy.default_limits t' later).
      simpl in *. lia.
    + constructor; [simpl; lia|done].
Qed.

Lemma rate_limit_window_of_ten_witness :
  exists ws1,
    Proxy.admissions Proxy.default_limits "user-1"
      [1000; 1001; 1002; 1003; 1004; 1005; 1006; 1007; 1008; 1009] ∅
    = (repeat true 10, ws1)
    /\ Proxy.admission Proxy.default_limits "user-1" 1010 ws1 = (false, ws1)
    /\ fst (Proxy.admission Proxy.default_limits "user-1" 1060 ws1) = true.
Proof.
  destruct (rate_limit_window_of_ten "user-1" ∅ 1000
              [1001; 1002; 1003; 1004; 1005; 1006; 1007; 1008; 1009] 1010
              ltac:(unfold Proxy.window_of; rewrite lookup_empty;
                    constructor) eq_refl
              ltac:(repeat constructor; lia) ltac:(lia))
    as (ws1 & Hrun & _ & Hrejected & _ & _ & _ & Hresume).
  exists ws1. split; [exact Hrun|]. split; [exact Hrejected|].
  apply Hresume. lia.
Defined.

Lemma filter_length_mono {A} (P Q : A -> Prop)
  `{forall x, Decision (P x)} `{forall x, Decision (Q x)} (l : list A) :
  Forall (fun x => P x -> Q x) l ->
  (List.length (filter P l) <= List.length (filter Q l))%nat.
Proof.
  induction 1 as [|x l Hx _ IH]; [done|].
  destruct (decide (P x)) as [HP|HP].
  - rewrite (filter_cons_True P) by done.
    rewrite (filter_cons_True Q) by auto. simpl. lia.
  - rewrite (filter_cons_False P) by done.
    destruct (decide (Q x)).
    + rewrite (filter_cons_True Q) by done. simpl. lia.
    + rewrite (filter_cons_False Q) by done. done.
Qed.

(** The sliding window at large: while the clock does not run backwards,
    the timestamps recorded for a caller within any trailing stretch of
    the duration never outnumber the capacity. *)
Lemma window_never_over_capacity lim caller now ws :
  Forall (fun t => t <= now) (Proxy.window_of ws caller) ->
  (forall u, (List.length (Proxy.within lim u (Proxy.window_of ws caller))
              <= Proxy.capacity lim)%nat) ->
  let ws' := snd (Proxy.admission lim caller now ws) in
  Forall (fun t => t <= now) (Proxy.window_of ws' caller)
  /\ (forall u, (List.length (Proxy.within lim u (Proxy.window_of ws' caller))
                 <= Proxy.capacity lim)%nat).
Proof.
  intros Hpast Hbound. unfold Proxy.admission. simpl.
  case_bool_decide as Hroom; simpl; [|done].
  rewrite window_of_insert. split.
  - apply Forall_app. split; [done|]. by constructor.
  - intros u. unfold Proxy.within. rewrite filter_app, length_app.
    destruct (decide (now <= u /\ u - now < Proxy.duration lim)) as [Hin|Hout].
    + rewrite filter_cons_True, filter_nil by done. simpl.
      assert (Hless :
        (List.length (Proxy.within lim u (Proxy.window_of ws caller))
         <= List.length
              (Proxy.recent lim now (Proxy.window_of ws caller)))%nat).
      { apply filter_length_mono.
        eapply Forall_impl; [exact Hpast|]. simpl. intros t Ht [_ Hu]. lia. }
      unfold Proxy.within in Hless. lia.
    + rewrite filter_cons_False, filter_nil by done. simpl.
      specialize (Hbound u). unfold Proxy.within in Hbound. lia.
Qed.

(* ===================================================================== *)
(** * Further properties of the file search service                      *)
(* ===================================================================== *)

(** ** What is decoded *)

Lemma has_comma_app_false a b :
  has_comma a = false -> has_comma (a +:+ b) = has_comma b.
Proof.
  induction a as [|ch a IH]; simpl; [done|].
  destruct (Ascii.eqb ch ","); [done|exact IH].
Qed.

Lemma after_comma_app a b :
  has_comma a = false -> after_comma (a +:+ String "," b) = b.
Proof.
  induction a as [|ch a IH]; simpl; [done|].
  destruct (Ascii.eqb ch ","); [done|exact IH].
Qed.

Lemma before_comma_whole a : has_comma a = false -> before_comma a = a.
Proof.
  induction a as [|ch a IH]; simpl; [done|].
  destruct (Ascii.eqb ch ","); [done|]. intros Ha. by rewrite IH.
Qed.

Lemma before_comma_app a b :
  has_comma a = false -> before_comma (a +:+ String "," b) = a.
Proof.
  induction a as [|ch a IH]; simpl; [done|].
  destruct (Ascii.eqb ch ","); [done|]. intros Ha. by rewrite IH.
Qed.

(** X1. A string without a comma is decoded whole, and of a data URI
    (a header without comma, a comma, a payload without comma) the
    payload is what is decoded. *)
Theorem data_uri_header_is_dropped header payload :
  has_comma header = false ->
  has_comma payload = false ->
  encoded_part payload = payload
  /\ encoded_part (header +:+ String "," payload) = payload.
Proof.
  intros Hh Hp. unfold encoded_part, split_comma_1. rewrite Hp. split; [done|].
  rewrite has_comma_app_false by done. simpl.
  rewrite after_comma_app by done. by apply before_comma_whole.
Qed.

Lemma data_uri_header_is_dropped_witness :
  encoded_part "JVBERi0xLjQ=" = "JVBERi0xLjQ="
  /\ encoded_part Demo.pdf_data_uri = "JVBERi0xLjQ=".
Proof.
  exact (data_uri_header_is_dropped "data:application/pdf;base64"
           "JVBERi0xLjQ=" eq_refl eq_refl).
Defined.

(** X2. What is decoded of a string with commas is its second piece in
    the sense of [split(',')]: the text between the first comma and the
    second. Whatever follows a second comma is left out. *)
Theorem text_after_second_comma_is_ignored s header payload rest :
  has_comma header = false ->
  has_comma payload = false ->
  (has_comma s = true -> split_comma s !! 1%nat = Some (encoded_part s))
  /\ encoded_part (header +:+ String "," (payload +:+ String "," rest))
     = payload.
Proof.
  intros Hh Hp. split.
  - unfold encoded_part, split_comma_1. intros Hs. rewrite Hs. clear Hh Hp.
    assert (Hhead : forall t, head (split_comma t) = Some (before_comma t)).
    { induction t as [|ch t IH]; simpl; [done|].
      destruct (Ascii.eqb ch ","); [done|].
      destruct (split_comma t) as [|piece pieces]; [done|].
      simpl in *. by injection IH as ->. }
    induction s as [|ch s IH]; simpl in *; [done|].
    destruct (Ascii.eqb ch ",").
    + simpl. rewrite <- head_lookup. apply Hhead.
    + specialize (IH Hs).
      destruct (split_comma s) as [|piece pieces]; [done|]. exact IH.
  - unfold encoded_part, split_comma_1.
    rewrite has_comma_app_false by done. simpl.
    rewrite after_comma_app by done. by apply before_comma_app.
Qed.

Lemma text_after_second_comma_is_ignored_witness :
  split_comma "data:application/pdf;base64,JVBE,Ri0x" !! 1%nat = Some "JVBE"
  /\ encoded_part "data:application/pdf;base64,JVBE,Ri0x" = "JVBE".
Proof.
  destruct (text_after_second_comma_is_ignored
              "data:application/pdf;base64,JVBE,Ri0x"
              "data:application/pdf;base64" "JVBE" "Ri0x" eq_refl eq_refl)
    as [Hsplit Hpart].
  split; [exact (Hsplit eq_refl)|exact Hpart].
Defined.

(** ** Registration, case by case *)

Lemma poll_finished fuel c operation elapsed s :
  done operation = true ->
  poll fuel c operation elapsed s = (Ok operation, s).
Proof. intros Hdone. destruct fuel; unfold poll; by rewrite Hdone. Qed.

(** A run of the polling loop that hands back an unfinished operation
    never saw a finished one. *)
Lemma poll_unfinished c fuel : forall operation elapsed s operation' s',
  poll fuel c operation elapsed s = (Ok operation', s') ->
  done operation' = false ->
  done operation = false
  /\ exists rounds,
       trace s' = trace s ++ rounds
       /\ some_call (answer_done c) (trace s) rounds = false.
Proof.
  induction fuel as [|fuel IH]; intros operation elapsed s operation' s' Hrun Hd;
    unfold poll in Hrun; fold poll in Hrun;
    destruct (negb (done operation) && (elapsed <? max_wait)) eqn:Hguard;
    try discriminate.
  - injection Hrun as <- <-. split; [done|]. exists []. by rewrite app_nil_r.
  - apply andb_true_iff in Hguard as [Hdone _]. apply negb_true_iff in Hdone.
    unfold bind, sleep, modify, remote, log in Hrun. simpl in Hrun.
    destruct (operations_get c (trace s ++ [EvSleep poll_interval]) operation)
      as [operation1|msg] eqn:Hget; simpl in Hrun; [|discriminate].
    destruct (IH _ _ _ _ _ Hrun Hd) as (Hd1 & rounds & Htrace & Hnone).
    split; [done|].
    exists (EvSleep poll_interval :: EvOperationsGet operation :: rounds).
    simpl in Htrace, Hnone. split.
    + rewrite Htrace, <- !app_assoc. done.
    + simpl. by rewrite Hget, Hd1.
  - injection Hrun as <- <-. split; [done|]. exists []. by rewrite app_nil_r.
Qed.

(** [upload_pdf_to_file_search] along its branches. *)
Lemma upload_unfold rt c doc pdf_base64 filename s :
  client s = Some c ->
  upload_pdf_to_file_search rt doc pdf_base64 filename s
  = match b64decode rt (encoded_part pdf_base64) with
    | Throws msg =>
        (Raise ("Failed to upload PDF to File Search: " +:+ msg), s)
    | Returns pdf_data =>
        let path := mkstemp rt (files s) in
        let s1 := set_files <[path := pdf_data]> s in
        let create := EvCreateStore ("clinical_doc_" +:+ doc) in
        match file_search_stores_create c (trace s)
                ("clinical_doc_" +:+ doc) with
        | Throws msg =>
            (Raise ("Failed to upload PDF to File Search: " +:+ msg),
             log create s1)
        | Returns store =>
            let upload := EvUpload path (name store) filename in
            match upload_to_file_search_store c (trace s ++ [create]) path
                    (name store) filename with
            | Throws msg =>
                (Raise ("Failed to upload PDF to File Search: " +:+ msg),
                 log upload (log create s1))
            | Returns operation =>
                match poll poll_fuel c operation 0
                        (log upload (log create s1)) with
                | (Ok operation', s3) =>
                    if done operation' then
                      (Ok {| file_search_store_id := name store;
                             message :=
                               "PDF uploaded successfully to File Search store" |},
                       set_store_mappings <[doc := name store]>
                         (set_files (delete path) s3))
                    else
                      (Raise ("Failed to upload PDF to File Search: "
                              +:+ timed_out),
                       set_files (delete path) s3)
                | (Raise msg, s3) =>
                    (Raise ("Failed to upload PDF to File Search: " +:+ msg),
                     s3)
                | (OutOfFuel, s3) => (OutOfFuel, s3)
                end
            end
        end
    end.
Proof.
  intros Hc. unfold upload_pdf_to_file_search. rewrite Hc.
  unfold try_except, upload_body, bind, lift_answer, named_temporary_file,
    remote.
  destruct (b64decode rt (encoded_part pdf_base64)); simpl; [|done].
  destruct (file_search_stores_create c (trace s) _); simpl; [|done].
  destruct (upload_to_file_search_store c _ _ _ _); simpl; [|done].
  destruct (poll poll_fuel c _ 0 _) as [[operation'|msg|] s3]; simpl; try done.
  by destruct (done operation').
Qed.

(** X3. Base64 text that cannot be decoded makes the registration raise
    at once, with the decoder's message after the fixed prefix: nothing
    is written, no remote call is made, the state is as before. *)
Theorem undecodable_pdf_changes_nothing rt c doc pdf_base64 filename s msg :
  client s = Some c ->
  b64decode rt (encoded_part pdf_base64) = Throws msg ->
  upload_pdf_to_file_search rt doc pdf_base64 filename s
  = (Raise ("Failed to upload PDF to File Search: " +:+ msg), s).
Proof. intros Hc Hdec. rewrite (upload_unfold rt c) by done. by rewrite Hdec. Qed.

Lemma undecodable_pdf_changes_nothing_witness :
  upload_pdf_to_file_search Demo.runtime "doc-1"
    "data:application/pdf;base64,JVBER" "a.pdf"
    (init (Some Demo.slow_client))
  = (Raise "Failed to upload PDF to File Search: Incorrect padding",
     init (Some Demo.slow_client)).
Proof.
  exact (undecodable_pdf_changes_nothing Demo.runtime Demo.slow_client "doc-1"
           "data:application/pdf;base64,JVBER" "a.pdf"
           (init (Some Demo.slow_client)) "Incorrect padding"
           eq_refl eq_refl).
Defined.

(** X4. When the upload call already hands back a finished operation,
    the registration neither sleeps nor polls: it makes the two remote
    calls (create the store named after the document, upload the
    temporary file into it under the given file name), removes the
    temporary file, records the mapping and returns the store's name. *)
Theorem finished_upload_is_not_polled
  rt c doc pdf_base64 filename s pdf_data store operation :
  client s = Some c ->
  b64decode rt (encoded_part pdf_base64) = Returns pdf_data ->
  file_search_stores_create c (trace s) ("clinical_doc_" +:+ doc)
  = Returns store ->
  upload_to_file_search_store c
    (trace s ++ [EvCreateStore ("clinical_doc_" +:+ doc)])
    (mkstemp rt (files s)) (name store) filename
  = Returns operation ->
  done operation = true ->
  upload_pdf_to_file_search rt doc pdf_base64 filename s
  = (Ok {| file_search_store_id := name store;
           message := "PDF uploaded successfully to File Search store" |},
     {| store_mappings := <[doc := name store]> (store_mappings s);
        client := client s;
        files := delete (mkstemp rt (files s))
                   (<[mkstemp rt (files s) := pdf_data]> (files s));
        trace := trace s
                 ++ [EvCreateStore ("clinical_doc_" +:+ doc);
                     EvUpload (mkstemp rt (files s)) (name store) filename]
     |}).
Proof.
  intros Hc Hdec Hcreate Hupload Hdone.
  rewrite (upload_unfold rt c) by done.
  rewrite Hdec. simpl. rewrite Hcreate, Hupload.
  rewrite poll_finished by done. rewrite Hdone.
  unfold set_store_mappings, set_files, log, add_trace. simpl.
  by rewrite <- app_assoc.
Qed.

Lemma finished_upload_is_not_polled_witness :
  exists s',
    upload_pdf_to_file_search Demo.runtime "doc-1" Demo.pdf_data_uri "a.pdf"
      (init (Some (Demo.answering_client Demo.empty_response)))
    = (Ok {| file_search_store_id := "fileSearchStores/clinical_doc_doc-1";
             message := "PDF uploaded successfully to File Search store" |},
       s')
    /\ sleep_total (trace s') = 0
    /\ poll_count (trace s') = 0%nat
    /\ get_store_id s' "doc-1" = Some "fileSearchStores/clinical_doc_doc-1".
Proof.
  eexists. split.
  - exact (finished_upload_is_not_polled Demo.runtime
             (Demo.answering_client Demo.empty_response) "doc-1"
             Demo.pdf_data_uri "a.pdf"
             (init (Some (Demo.answering_client Demo.empty_response)))
             _ _ _ eq_refl eq_refl eq_refl eq_refl eq_refl).
  - repeat split; reflexivity.
Defined.

(** X5. A registration returns normally exactly when the PDF data could
    be decoded, none of its remote calls raised, and one of the operation
    handles it obtained (from the upload or from a poll) reported
    completion. *)
Theorem registration_succeeds_exactly_when_indexed
  rt c doc pdf_base64 filename s r s' new :
  client s = Some c ->
  upload_pdf_to_file_search rt doc pdf_base64 filename s = (r, s') ->
  trace s' = trace s ++ new ->
  (exists v, r = Ok v)
  <-> (throws (b64decode rt (encoded_part pdf_base64)) = false
       /\ some_call (answer_failed c) (trace s) new = false
       /\ some_call (answer_done c) (trace s) new = true).
Proof.
  intros Hc Hrun Htrace.
  destruct (upload_run rt c doc pdf_base64 filename s r s' Hc Hrun)
    as (new' & Htrace' & _ & Hfuel & _ & _ & _ & Hfail & Hdone & _).
  rewrite Htrace in Htrace'. apply app_inv_head in Htrace' as <-.
  split.
  - intros [v ->]. split; [|split].
    + destruct (b64decode rt (encoded_part pdf_base64)) as [|msg] eqn:Hdec;
        [done|].
      rewrite (upload_unfold rt c) in Hrun by done. rewrite Hdec in Hrun.
      discriminate.
    + destruct (some_call (answer_failed c) (trace s) new); [|done].
      by specialize (Hfail eq_refl).
    + destruct (some_call (answer_done c) (trace s) new); [done|].
      by specialize (Hdone eq_refl).
  - intros (Hdec & Hnofail & Hsome).
    rewrite (upload_unfold rt c) in Hrun by done.
    destruct (b64decode rt (encoded_part pdf_base64)) as [pdf_data|];
      [|done]. simpl in Hrun.
    destruct (file_search_stores_create c (trace s) _) as [store|msg]
      eqn:Hcreate.
    2:{ injection Hrun as <- <-. simpl in Htrace.
        apply app_inv_head in Htrace as <-. simpl in Hnofail.
        by rewrite Hcreate in Hnofail. }
    destruct (upload_to_file_search_store c _ _ _ _) as [operation|msg]
      eqn:Hupload.
    2:{ injection Hrun as <- <-. simpl in Htrace.
        rewrite <- app_assoc in Htrace.
        apply app_inv_head in Htrace as <-. simpl in Hnofail.
        by rewrite Hcreate, Hupload in Hnofail. }
    destruct (poll poll_fuel c operation 0 _) as [[operation'|msg|] s3]
      eqn:Hpoll.
    + destruct (done operation') eqn:Hd'.
      * injection Hrun as <- <-. eauto.
      * injection Hrun as <- <-.
        destruct (poll_unfinished _ _ _ _ _ _ _ Hpoll Hd')
          as (Hd & rounds & Hrounds & Hnone).
        simpl in Htrace, Hrounds, Hnone.
        rewrite Hrounds, <- !app_assoc in Htrace.
        apply app_inv_head in Htrace as <-. simpl in Hsome.
        rewrite Hupload, Hd in Hsome. simpl in Hsome. congruence.
    + injection Hrun as <- <-.
      destruct (poll_run c poll_fuel operation 0
                  (log (EvUpload (mkstemp rt (files s)) (name store) filename)
                     (log (EvCreateStore ("clinical_doc_" +:+ doc))
                        (set_files <[mkstemp rt (files s) := pdf_data]> s))))
        as (r1 & rounds & Hpoll' & _ & _ & _ & Hr1);
        [lia | unfold poll_fuel; lia |].
      change (5 * 0) with 0 in Hpoll'. rewrite Hpoll in Hpoll'.
      injection Hpoll' as <- ->. simpl in Htrace, Hr1.
      rewrite <- !app_assoc in Htrace.
      apply app_inv_head in Htrace as <-. simpl in Hnofail.
      rewrite Hcreate, Hupload in Hnofail. simpl in Hnofail. congruence.
    + injection Hrun as <- <-. done.
Qed.

Lemma registration_succeeds_exactly_when_indexed_witness :
  exists new,
    trace (snd (upload_pdf_to_file_search Demo.runtime "doc-1"
                  Demo.pdf_data_uri "good.pdf"
                  (init (Some Demo.slow_client)))) = new
    /\ some_call (answer_failed Demo.slow_client) [] new = false
    /\ some_call (answer_done Demo.slow_client) [] new = true.
Proof.
  eexists. split; [reflexivity|].
  exact (proj2 (proj1 (registration_succeeds_exactly_when_indexed
           Demo.runtime Demo.slow_client "doc-1" Demo.pdf_data_uri "good.pdf"
           (init (Some Demo.slow_client)) _ _ _ eq_refl eq_refl eq_refl)
           (ex_intro _ _ eq_refl))).
Defined.

Lemma upload_ok_record
  rt c doc pdf_base64 filename s v s' :
  client s = Some c ->
  upload_pdf_to_file_search rt doc pdf_base64 filename s = (Ok v, s') ->
  get_store_id s' doc = Some (file_search_store_id v)
  /\ file_search_stores_create c (trace s) ("clinical_doc_" +:+ doc)
     = Returns {| name := file_search_store_id v |}
  /\ message v = "PDF uploaded successfully to File Search store".
Proof.
  intros Hc Hrun.
  destruct (upload_run rt c doc pdf_base64 filename s _ s' Hc Hrun)
    as (_ & _ & _ & _ & _ & _ & _ & _ & _ & Hmap & _).
  split. { unfold get_store_id. rewrite Hmap. apply lookup_insert_eq. }
  rewrite (upload_unfold rt c) in Hrun by done.
  destruct (b64decode rt (encoded_part pdf_base64)); [|done].
  simpl in Hrun.
  destruct (file_search_stores_create c (trace s) _) as [[store_name]|];
    [|done].
  destruct (upload_to_file_search_store c _ _ _ _); [|done].
  destruct (poll poll_fuel c _ 0 _) as [[operation'|msg|] s3]; try done.
  destruct (done operation'); [|done].
  by injection Hrun as <- _.
Qed.

(** X6. A registration that returns normally has recorded the document:
    [get_store_id] then gives the store id it returned, which is the
    name of the store that the create call (made for "clinical_doc_"
    followed by the document id) handed back. An earlier mapping of the
    document is replaced. *)
Theorem successful_registration_is_recorded
  rt c doc pdf_base64 filename s v s' :
  client s = Some c ->
  upload_pdf_to_file_search rt doc pdf_base64 filename s = (Ok v, s') ->
  get_store_id s' doc = Some (file_search_store_id v)
  /\ file_search_stores_create c (trace s) ("clinical_doc_" +:+ doc)
     = Returns {| name := file_search_store_id v |}
  /\ message v = "PDF uploaded successfully to File Search store".
Proof. apply upload_ok_record. Qed.

Lemma successful_registration_is_recorded_witness :
  get_store_id
    (snd (upload_pdf_to_file_search Demo.runtime "doc-1" Demo.pdf_data_uri
            "good.pdf" (init (Some Demo.slow_client)))) "doc-1"
  = Some "fileSearchStores/clinical_doc_doc-1".
Proof.
  exact (proj1 (successful_registration_is_recorded Demo.runtime
                  Demo.slow_client "doc-1" Demo.pdf_data_uri "good.pdf"
                  (init (Some Demo.slow_client)) _ _ eq_refl eq_refl)).
Defined.

(** X7. Whatever a registration of one document does, what
    [get_store_id] gives for every other document stays the same. *)
Theorem registration_keeps_other_documents
  rt doc pdf_base64 filename s other :
  other <> doc ->
  get_store_id
    (snd (upload_pdf_to_file_search rt doc pdf_base64 filename s)) other
  = get_store_id s other.
Proof.
  intros Hne.
  destruct (upload_pdf_to_file_search rt doc pdf_base64 filename s)
    as [r s'] eqn:Hrun. simpl.
  destruct (client s) as [c|] eqn:Hc.
  - destruct (upload_run rt c doc pdf_base64 filename s r s' Hc Hrun)
      as (_ & _ & _ & _ & _ & _ & _ & _ & _ & Hmap & _).
    unfold get_store_id. rewrite Hmap.
    destruct r; try done. by rewrite lookup_insert_ne.
  - rewrite upload_without_client in Hrun by done. by injection Hrun as _ <-.
Qed.

Lemma registration_keeps_other_documents_witness :
  let s1 := snd (upload_pdf_to_file_search Demo.runtime "doc-1"
                   Demo.pdf_data_uri "good.pdf"
                   (init (Some Demo.slow_client))) in
  get_store_id
    (snd (upload_pdf_to_file_search Demo.runtime "doc-2" Demo.pdf_data_uri
            "good.pdf" s1)) "doc-1"
  = get_store_id s1 "doc-1".
Proof.
  exact (registration_keeps_other_documents Demo.runtime "doc-2"
           Demo.pdf_data_uri "good.pdf" _ "doc-1" ltac:(discriminate)).
Defined.

(** ** Queries *)

(** X8. A query with a client makes exactly one remote call, a
    [generate_content] with the model "gemini-2.5-flash" scoped to the
    store id it was given; it leaves the store mapping, the files and the
    client as they were; and when that call raises, the query raises the
    call's message after the fixed prefix. *)
Theorem query_makes_one_call doc store query s c :
  client s = Some c ->
  trace (snd (query_with_citations doc store query s))
  = trace s ++ [EvGenerateContent "gemini-2.5-flash" store query]
  /\ store_mappings (snd (query_with_citations doc store query s))
     = store_mappings s
  /\ files (snd (query_with_citations doc store query s)) = files s
  /\ client (snd (query_with_citations doc store query s)) = client s
  /\ (forall msg,
        generate_content c (trace s) "gemini-2.5-flash" store query
        = Throws msg ->
        fst (query_with_citations doc store query s)
        = Raise ("Failed to query with citations: " +:+ msg)).
Proof.
  intros Hc. rewrite (query_with_client c) by done. simpl.
  repeat split; try done.
  intros msg Hmsg. unfold query_model. by rewrite Hmsg.
Qed.

Lemma query_makes_one_call_witness :
  trace (snd (query_with_citations "doc-1" "fileSearchStores/x" "mortality?"
                (init (Some Demo.refusing_client))))
  = [EvGenerateContent "gemini-2.5-flash" "fileSearchStores/x" "mortality?"]
  /\ fst (query_with_citations "doc-1" "fileSearchStores/x" "mortality?"
            (init (Some Demo.refusing_client)))
     = Raise "Failed to query with citations: 503 Service Unavailable".
Proof.
  destruct (query_makes_one_call "doc-1" "fileSearchStores/x" "mortality?"
              (init (Some Demo.refusing_client)) Demo.refusing_client eq_refl)
    as (Htrace & _ & _ & _ & Hraise).
  split; [exact Htrace|]. exact (Hraise "503 Service Unavailable" eq_refl).
Defined.

(** X9. A query does not look at the store mapping: asked of the same
    surroundings, it gives the same answer and citations whatever
    documents are registered and whatever document id it is given, and
    that id is only handed back in the result. *)
Theorem query_does_not_consult_mappings doc doc' store query s f result s1 :
  query_with_citations doc store query s = (Ok result, s1) ->
  exists result' s2,
    query_with_citations doc' store query (set_store_mappings f s)
    = (Ok result', s2)
    /\ document_id result' = doc'
    /\ document_id result = doc
    /\ answer result' = answer result
    /\ citations result' = citations result.
Proof.
  intros Hrun. destruct (client s) as [c|] eqn:Hc.
  - rewrite (query_with_client c) in Hrun by done.
    rewrite (query_with_client c) by done. simpl.
    destruct (generate_content c (trace s) query_model store query)
      as [response|]; [|done].
    destruct (extract_citations response); [|done].
    injection Hrun as <- _. eexists _, _. by split.
  - unfold query_with_citations in Hrun. by rewrite Hc in Hrun.
Qed.

Lemma query_does_not_consult_mappings_witness :
  exists result' s2,
    query_with_citations "never-registered" "fileSearchStores/x" "mortality?"
      (set_store_mappings (fun _ => ∅)
         (init (Some (Demo.answering_client Demo.grounded_response))))
    = (Ok result', s2)
    /\ answer result' = "Mortality was lower in the surgical group.".
Proof.
  destruct (query_does_not_consult_mappings "doc-1" "never-registered"
              "fileSearchStores/x" "mortality?"
              (init (Some (Demo.answering_client Demo.grounded_response)))
              (fun _ => ∅) _ _ eq_refl)
    as (result' & s2 & Hrun & _ & _ & Hanswer & _).
  exists result', s2. split; [exact Hrun|exact Hanswer].
Defined.

(** X10. The answer of a query that returns normally is never the empty
    string. *)
Theorem answer_is_never_empty doc store query s result s' :
  query_with_citations doc store query s = (Ok result, s') ->
  answer result <> "".
Proof.
  intros Hrun. destruct (client s) as [c|] eqn:Hc.
  - rewrite (query_with_client c) in Hrun by done.
    destruct (generate_content c (trace s) query_model store query)
      as [response|]; [|done].
    destruct (extract_citations response); [|done].
    injection Hrun as <- _. simpl. unfold answer_of.
    by destruct (text response) as [[|ch t]|].
  - unfold query_with_citations in Hrun. by rewrite Hc in Hrun.
Qed.

Lemma answer_is_never_empty_witness :
  answer_of {| text := Some ""; candidates := None |} <> "".
Proof.
  pose proof (answer_is_never_empty "doc-1" "fileSearchStores/x" "mortality?"
                (init (Some (Demo.answering_client
                               {| text := Some ""; candidates := None |})))
                _ _ eq_refl) as Hne.
  exact Hne.
Defined.

(** X11. The citations that a response yields are as many as the
    supports of the first candidate's grounding metadata that have a
    [segment] attribute, so never more than the supports and as many
    when every support has one; without candidates, without metadata and
    without a [grounding_supports] attribute there are none; and when
    that attribute holds [None] there is no result but an exception. *)
Theorem citations_never_outnumber_supports response :
  match candidates response with
  | Some (candidate :: _) =>
      match grounding_metadata candidate with
      | Some metadata =>
          match grounding_supports metadata with
          | Has supports =>
              forall extracted,
                extract_citations response = Returns extracted ->
                List.length extracted
                = List.length
                    (filter (fun support => hasattr (segment support) = true)
                       supports)
                /\ (List.length extracted <= List.length supports)%nat
                /\ (Forall (fun support => hasattr (segment support) = true)
                      supports ->
                    List.length extracted = List.length supports)
          | IsNone => extract_citations response = Throws not_iterable
          | Missing => extract_citations response = Returns []
          end
      | None => extract_citations response = Returns []
      end
  | Some [] | None => extract_citations response = Returns []
  end.
Proof.
  unfold extract_citations.
  destruct (candidates response) as [[|candidate others]|]; try done.
  destruct (grounding_metadata candidate) as [metadata|]; try done.
  destruct (grounding_supports metadata) as [| |supports]; try done.
  intros extracted Hrun.
  assert (Hgen : forall acc,
    for_each (citation_step metadata) supports acc = Returns extracted ->
    List.length extracted
    = (List.length acc
       + List.length
           (filter (fun support => hasattr (segment support) = true)
              supports))%nat).
  { clear Hrun. induction supports as [|support supports IH]; intros acc; simpl.
    - intros [= <-]. lia.
    - rewrite citation_step_described.
      destruct (lookup_fault metadata support); [done|].
      intros Hrest. rewrite (IH _ Hrest), length_app.
      unfold described_citation.
      destruct (segment support) as [| |seg] eqn:Hseg; simpl.
      + rewrite filter_cons_False by (by rewrite Hseg). lia.
      + rewrite filter_cons_True by (by rewrite Hseg). simpl. lia.
      + rewrite filter_cons_True by (by rewrite Hseg). simpl. lia. }
  specialize (Hgen [] Hrun). simpl in Hgen. split; [exact Hgen|]. split.
  - rewrite Hgen. apply length_filter.
  - intros Hall. rewrite Hgen. f_equal.
    clear Hrun Hgen. induction Hall as [|support supports Hseg _ IH]; [done|].
    rewrite filter_cons_True by done. by rewrite IH.
Qed.

Lemma citations_never_outnumber_supports_witness :
  (exists extracted,
     extract_citations Demo.grounded_response = Returns extracted
     /\ List.length extracted = 3%nat)
  /\ (exists extracted,
        extract_citations Demo.uneven_response = Returns extracted
        /\ List.length extracted = 3%nat)
  /\ (exists extracted,
        extract_citations Demo.bare_support_response = Returns extracted
        /\ List.length extracted = 1%nat)
  /\ extract_citations Demo.unset_metadata_response = Throws not_iterable
  /\ extract_citations Demo.empty_response = Returns [].
Proof.
  split; [|split; [|split; [|split]]].
  - eexists. split; [reflexivity|].
    exact (proj1 (citations_never_outnumber_supports Demo.grounded_response
                    _ eq_refl)).
  - eexists. split; [reflexivity|].
    exact (proj1 (citations_never_outnumber_supports Demo.uneven_response
                    _ eq_refl)).
  - eexists. split; [reflexivity|].
    exact (proj2 (proj2 (citations_never_outnumber_supports
                           Demo.bare_support_response _ eq_refl))
             ltac:(repeat constructor)).
  - exact (citations_never_outnumber_supports Demo.unset_metadata_response).
  - exact (citations_never_outnumber_supports Demo.empty_response).
Defined.

(** X12. A question asked of a registered document with the handle that
    [get_store_id] gives goes to the store that the registration created,
    and leaves the document registered. *)
Theorem query_after_registration_targets_created_store
  rt c doc pdf_base64 filename question s v s1 handle :
  client s = Some c ->
  upload_pdf_to_file_search rt doc pdf_base64 filename s = (Ok v, s1) ->
  get_store_id s1 doc = Some handle ->
  file_search_stores_create c (trace s) ("clinical_doc_" +:+ doc)
  = Returns {| name := handle |}
  /\ trace (snd (query_with_citations doc handle question s1))
     = trace s1 ++ [EvGenerateContent "gemini-2.5-flash" handle question]
  /\ get_store_id (snd (query_with_citations doc handle question s1)) doc
     = Some handle.
Proof.
  intros Hc Hrun Hget.
  destruct (upload_ok_record rt c doc pdf_base64
              filename s v s1 Hc Hrun) as (Hrec & Hcreate & _).
  rewrite Hrec in Hget. injection Hget as <-. split; [exact Hcreate|].
  assert (Hc1 : client s1 = Some c).
  { destruct (upload_run rt c doc pdf_base64 filename s _ s1 Hc Hrun)
      as (_ & _ & Hclient & _). by rewrite Hclient. }
  rewrite (query_with_client c) by done. simpl. split; [done|exact Hrec].
Qed.

Lemma query_after_registration_targets_created_store_witness :
  let s1 := snd (upload_pdf_to_file_search Demo.runtime "doc-1"
                   Demo.pdf_data_uri "a.pdf"
                   (init (Some (Demo.answering_client
                                  Demo.grounded_response)))) in
  trace (snd (query_with_citations "doc-1"
                "fileSearchStores/clinical_doc_doc-1" "mortality?" s1))
  = trace s1 ++ [EvGenerateContent "gemini-2.5-flash"
                   "fileSearchStores/clinical_doc_doc-1" "mortality?"].
Proof.
  exact (proj1 (proj2 (query_after_registration_targets_created_store
           Demo.runtime (Demo.answering_client Demo.grounded_response)
           "doc-1" Demo.pdf_data_uri "a.pdf" "mortality?"
           (init (Some (Demo.answering_client Demo.grounded_response)))
           _ _ "fileSearchStores/clinical_doc_doc-1"
           eq_refl eq_refl eq_refl))).
Defined.

(** ** The service object at start-up *)

(** X13. A service object starts without any store mapping. It has a
    client exactly when the SDK was there and the client could be built
    (which is also when [HAS_FILE_SEARCH] is left true); otherwise every
    registration and every query raises the unavailability error and
    changes nothing. *)
Theorem service_without_sdk_is_unavailable has_file_search new_client :
  let s := fst (Construction.construct has_file_search new_client) in
  let flag := snd (Construction.construct has_file_search new_client) in
  (forall doc, get_store_id s doc = None)
  /\ (flag = true <-> has_file_search = true /\ throws new_client = false)
  /\ (flag = true <-> is_Some (client s))
  /\ (flag = false ->
      forall rt doc pdf_base64 filename store query,
        upload_pdf_to_file_search rt doc pdf_base64 filename s
        = (Raise unavailable, s)
        /\ query_with_citations doc store query s = (Raise unavailable, s)).
Proof.
  unfold Construction.construct.
  destruct has_file_search, new_client as [c|msg]; simpl;
    (split; [done|]); (split; [split; [by intros [=]|by intros [[=] [=]]]|]).
  - split; [split; eauto|done].
  - split; [split; [done|by intros [? [=]]]|done].
  - split; [split; [done|by intros [? [=]]]|done].
  - split; [split; [done|by intros [? [=]]]|done].
Qed.

Lemma service_without_sdk_is_unavailable_witness :
  upload_pdf_to_file_search Demo.runtime "doc-1" Demo.pdf_data_uri "a.pdf"
    (fst (Construction.construct true (Throws "API key not valid")))
  = (Raise unavailable,
     fst (Construction.construct true (Throws "API key not valid"))).
Proof.
  exact (proj1 (proj2 (proj2 (proj2 (service_without_sdk_is_unavailable true
           (Throws "API key not valid")))) eq_refl Demo.runtime "doc-1"
           Demo.pdf_data_uri "a.pdf" "fileSearchStores/x" "mortality?")).
Defined.

(* ===================================================================== *)
(** * Properties of the PDF library endpoints                            *)
(* ===================================================================== *)

Section DictFacts.

Context {V : Type}.
Implicit Types (d : list (string * V)) (k : string) (v : V).

Lemma dict_get_set d k v : PyDict.get (PyDict.set d k v) k = Some v.
Proof.
  induction d as [|[k' v'] d IH]; simpl.
  - by rewrite String.eqb_refl.
  - destruct (String.eqb k' k) eqn:Hk; simpl.
    + by rewrite String.eqb_refl.
    + by rewrite Hk.
Qed.

Lemma dict_get_set_other d k v other :
  other <> k -> PyDict.get (PyDict.set d k v) other = PyDict.get d other.
Proof.
  intros Hne. induction d as [|[k' v'] d IH]; simpl.
  - by rewrite (proj2 (String.eqb_neq k other)).
  - destruct (String.eqb k' k) eqn:Hk; simpl.
    + apply String.eqb_eq in Hk as ->.
      by rewrite (proj2 (String.eqb_neq k other)).
    + by rewrite IH.
Qed.

Lemma dict_get_remove d k : PyDict.get (PyDict.remove d k) k = None.
Proof.
  induction d as [|[k' v'] d IH]; simpl; [done|].
  destruct (String.eqb k' k) eqn:Hk; simpl; [done|]. by rewrite Hk.
Qed.

Lemma dict_get_remove_other d k other :
  other <> k -> PyDict.get (PyDict.remove d k) other = PyDict.get d other.
Proof.
  intros Hne. induction d as [|[k' v'] d IH]; simpl; [done|].
  destruct (String.eqb k' k) eqn:Hk; simpl.
  - apply String.eqb_eq in Hk as ->.
    by rewrite (proj2 (String.eqb_neq k other)).
  - by rewrite IH.
Qed.

Lemma dict_get_none d k : PyDict.get d k = None <-> k ∉ PyDict.keys d.
Proof.
  induction d as [|[k' v'] d IH]; simpl.
  - split; [intros _; apply not_elem_of_nil|done].
  - rewrite not_elem_of_cons.
    destruct (String.eqb k' k) eqn:Hk.
    + apply String.eqb_eq in Hk as ->. split; [done|by intros [? _]].
    + apply String.eqb_neq in Hk. rewrite IH. split; [|by intros [_ ?]].
      intros Hd. split; [congruence|done].
Qed.

Lemma dict_get_some d k v : PyDict.get d k = Some v -> (k, v) ∈ d.
Proof.
  induction d as [|[k' v'] d IH]; simpl; [done|].
  destruct (String.eqb k' k) eqn:Hk.
  - apply String.eqb_eq in Hk as ->. intros [= ->]. apply list_elem_of_here.
  - intros Hd. apply list_elem_of_further. by apply IH.
Qed.

Lemma dict_get_in d k v :
  NoDup (PyDict.keys d) -> (k, v) ∈ d -> PyDict.get d k = Some v.
Proof.
  induction d as [|[k' v'] d IH]; simpl; intros Hnd Hin.
  - by apply elem_of_nil in Hin.
  - apply NoDup_cons in Hnd as [Hk' Hnd].
    apply elem_of_cons in Hin as [[= -> ->]|Hin].
    + by rewrite String.eqb_refl.
    + destruct (String.eqb k' k) eqn:Hk; [|by apply IH].
      apply String.eqb_eq in Hk as ->. exfalso. apply Hk'.
      unfold PyDict.keys. apply list_elem_of_fmap. by exists (k, v).
Qed.

Lemma dict_set_new d k v :
  PyDict.get d k = None -> PyDict.set d k v = d ++ [(k, v)].
Proof.
  induction d as [|[k' v'] d IH]; simpl; [done|].
  destruct (String.eqb k' k); [done|]. intros Hd. by rewrite IH.
Qed.

Lemma dict_set_old_keys d k v :
  is_Some (PyDict.get d k) ->
  PyDict.keys (PyDict.set d k v) = PyDict.keys d.
Proof.
  induction d as [|[k' v'] d IH]; simpl; [by intros [? ?]|].
  destruct (String.eqb k' k) eqn:Hk; simpl.
  - apply String.eqb_eq in Hk as ->. done.
  - intros Hd. by rewrite IH.
Qed.

Lemma dict_remove_missing d k :
  PyDict.get d k = None -> PyDict.remove d k = d.
Proof.
  induction d as [|[k' v'] d IH]; simpl; [done|].
  destruct (String.eqb k' k); [done|]. intros Hd. by rewrite IH.
Qed.

Lemma dict_remove_sublist d k : sublist (PyDict.remove d k) d.
Proof.
  induction d as [|[k' v'] d IH]; simpl; [done|].
  destruct (String.eqb k' k); [by apply sublist_cons|by apply sublist_skip].
Qed.

End DictFacts.

Lemma dict_remove_shorter {V} (d : list (string * V)) k :
  is_Some (PyDict.get d k) ->
  (List.length (PyDict.remove d k) < List.length d)%nat.
Proof.
  induction d as [|[k' v'] d IH]; simpl; [by intros [? ?]|].
  destruct (String.eqb k' k).
  - intros _. pose proof (sublist_length _ _ (dict_remove_sublist d k)). lia.
  - intros Hd. specialize (IH Hd). simpl. lia.
Qed.

Section LibraryProperties.
Import Store Library.

(** X14. A PDF uploaded with the data URI prefix is filed under
    "library_" followed by the generated id, and fetching that id gives
    back the title, file name, data, page count and description that
    were uploaded, whatever the library held before. *)
Theorem uploaded_pdf_can_be_fetched request generated now db :
  String.prefix data_uri_prefix (req_pdf_data request) = true ->
  fst (upload_pdf_to_library request generated now db)
  = Respond {| res_id := "library_" +:+ generated;
               res_title := req_title request;
               res_filename := req_filename request;
               res_total_pages := req_total_pages request;
               res_description := req_description request |}
  /\ get_library_pdf ("library_" +:+ generated)
       (snd (upload_pdf_to_library request generated now db))
     = Respond {| det_id := "library_" +:+ generated;
                  det_title := req_title request;
                  det_filename := req_filename request;
                  det_pdf_data := req_pdf_data request;
                  det_total_pages := req_total_pages request;
                  det_description := req_description request |}.
Proof.
  intros Hprefix. unfold upload_pdf_to_library. rewrite Hprefix. simpl.
  split; [done|]. unfold get_library_pdf. simpl. by rewrite dict_get_set.
Qed.

(** X15. PDF data that does not start with the data URI prefix is
    refused with status 400 and the store is left as it was; data that
    starts with it is accepted without a look at what follows. *)
Theorem upload_checks_only_the_prefix request generated now db :
  (String.prefix data_uri_prefix (req_pdf_data request) = false ->
   upload_pdf_to_library request generated now db
   = (HTTPException 400
        "PDF data must be base64-encoded with data URI prefix", db))
  /\ (forall rest,
        req_pdf_data request = data_uri_prefix +:+ rest ->
        exists body,
          fst (upload_pdf_to_library request generated now db)
          = Respond body).
Proof.
  split.
  - intros Hprefix. unfold upload_pdf_to_library. by rewrite Hprefix.
  - intros rest Hdata. unfold upload_pdf_to_library. rewrite Hdata.
    assert (Hpre : forall a b, String.prefix a (a +:+ b) = true).
    { induction a as [|ch a IH]; intros b; simpl; [by destruct b|].
      destruct (Ascii.ascii_dec ch ch); [apply IH|done]. }
    rewrite Hpre. simpl. eauto.
Qed.

(** X16. An id that is not a key of the library is not found: fetching
    it and deleting it both give status 404, and the deletion leaves the
    store as it was. *)
Theorem unknown_pdf_is_not_found library_id db :
  library_id ∉ PyDict.keys (pdf_library db) ->
  get_library_pdf library_id db
  = HTTPException 404 "PDF not found in library"
  /\ delete_library_pdf library_id db
     = (HTTPException 404 "PDF not found in library", db).
Proof.
  intros Hmissing. apply dict_get_none in Hmissing.
  unfold get_library_pdf, delete_library_pdf. by rewrite Hmissing.
Qed.

(** X17. Deleting a PDF that is in the library answers with its title,
    after which that id is not found, every other id is fetched as
    before, and the listing has lost entries but kept the order of the
    others. *)
Theorem deleted_pdf_is_gone library_id db item :
  PyDict.get (pdf_library db) library_id = Some item ->
  fst (delete_library_pdf library_id db)
  = Respond ("Deleted " +:+ title item +:+ " from library")
  /\ get_library_pdf library_id (snd (delete_library_pdf library_id db))
     = HTTPException 404 "PDF not found in library"
  /\ (forall other, other <> library_id ->
        get_library_pdf other (snd (delete_library_pdf library_id db))
        = get_library_pdf other db)
  /\ sublist (list_library_pdfs (snd (delete_library_pdf library_id db)))
       (list_library_pdfs db)
  /\ (List.length
        (list_library_pdfs (snd (delete_library_pdf library_id db)))
      < List.length (list_library_pdfs db))%nat.
Proof.
  intros Hitem. unfold delete_library_pdf. rewrite Hitem. simpl.
  split; [done|]. unfold get_library_pdf, list_library_pdfs. simpl. split.
  { by rewrite dict_get_remove. }
  split. { intros other Hne. by rewrite dict_get_remove_other. }
  unfold PyDict.values. rewrite !length_map. split.
  - apply fmap_sublist, fmap_sublist, dict_remove_sublist.
  - apply dict_remove_shorter. by rewrite Hitem.
Qed.

End LibraryProperties.

Lemma dict_set_keys_nodup {V} (d : list (string * V)) k v :
  NoDup (PyDict.keys d) -> NoDup (PyDict.keys (PyDict.set d k v)).
Proof.
  intros Hnd. destruct (PyDict.get d k) as [v'|] eqn:Hget.
  - by rewrite dict_set_old_keys.
  - rewrite dict_set_new by done. unfold PyDict.keys. rewrite fmap_app.
    apply NoDup_app. split; [done|]. split.
    + intros k' Hin Hk. apply list_elem_of_singleton in Hk. simpl in Hk.
      subst k'. by apply dict_get_none in Hget.
    + apply NoDup_singleton.
Qed.

Lemma dict_set_forall {V} (P : string * V -> Prop) (d : list (string * V)) k v :
  Forall P d -> P (k, v) -> Forall P (PyDict.set d k v).
Proof.
  intros Hall Hnew. induction Hall as [|[k' v'] d Hx Hall IH]; simpl.
  - by constructor.
  - destruct (String.eqb k' k); by constructor.
Qed.

Lemma dict_remove_forall {V} (P : string * V -> Prop)
  (d : list (string * V)) k :
  Forall P d -> Forall P (PyDict.remove d k).
Proof.
  induction 1 as [|[k' v'] d Hx Hall IH]; simpl; [done|].
  destruct (String.eqb k' k); [done|by constructor].
Qed.

Section LibraryInvariant.
Import Store Library.

(** X18. The library starts consistent (no id twice, every item filed
    under its own id) and an upload, a deletion and the start-up keep it
    so, whatever their outcome. *)
Theorem library_stays_consistent :
  consistent Store.empty
  /\ (forall request generated now db,
        consistent db ->
        consistent (snd (upload_pdf_to_library request generated now db)))
  /\ (forall library_id db,
        consistent db ->
        consistent (snd (delete_library_pdf library_id db)))
  /\ (forall out db,
        consistent db -> consistent (Main.startup_event out db)).
Proof.
  split. { split; simpl; constructor. }
  split; [|split].
  - intros request generated now db [Hnd Hid].
    unfold upload_pdf_to_library.
    destruct (String.prefix _ _); simpl; [|done].
    split; simpl; [by apply dict_set_keys_nodup|by apply dict_set_forall].
  - intros library_id db [Hnd Hid]. unfold delete_library_pdf.
    destruct (PyDict.get (pdf_library db) library_id); simpl; [|done].
    split; simpl.
    + apply (sublist_NoDup _ (PyDict.keys (pdf_library db))); [exact Hnd|].
      apply fmap_sublist, dict_remove_sublist.
    + by apply dict_remove_forall.
  - intros out db [Hnd Hid]. unfold Main.startup_event, Main.init_pdf_library.
    assert (Hlib : pdf_library (Main.create_demo_user out db) = pdf_library db).
    { unfold Main.create_demo_user. by destruct (users_by_email db !! _). }
    rewrite Hlib. destruct (pdf_library db) as [|entry library] eqn:Hd.
    + split; simpl; rewrite Hlib; simpl; unfold Main.add_library_pdf;
        destruct (Main.public_files out !! _); simpl; repeat constructor;
        by apply not_elem_of_nil.
    + split; rewrite Hlib; [exact Hnd|exact Hid].
Qed.

(** X19. In a consistent library the listing and the fetching agree:
    every listed entry can be fetched by its id, with the same title,
    file name, page count and description, and every id that can be
    fetched is listed. *)
Theorem listing_matches_fetching db :
  consistent db ->
  (forall entry,
     entry ∈ list_library_pdfs db ->
     exists detail,
       get_library_pdf (res_id entry) db = Respond detail
       /\ det_id detail = res_id entry
       /\ det_title detail = res_title entry
       /\ det_filename detail = res_filename entry
       /\ det_total_pages detail = res_total_pages entry
       /\ det_description detail = res_description entry)
  /\ (forall library_id detail,
        get_library_pdf library_id db = Respond detail ->
        exists entry,
          entry ∈ list_library_pdfs db
          /\ res_id entry = library_id
          /\ res_title entry = det_title detail).
Proof.
  intros [Hnd Hid]. unfold list_library_pdfs, get_library_pdf, PyDict.values.
  split.
  - intros entry Hin.
    apply list_elem_of_fmap in Hin as (item & -> & Hin).
    apply list_elem_of_fmap in Hin as ([k item'] & -> & Hin). simpl.
    pose proof (proj1 (Forall_forall _ _) Hid _ Hin) as Hkey. simpl in Hkey.
    rewrite Hkey, (dict_get_in _ _ _ Hnd Hin). eexists. by split.
  - intros library_id detail Hget.
    destruct (PyDict.get (pdf_library db) library_id) as [item|] eqn:Hitem;
      [|done].
    injection Hget as <-. apply dict_get_some in Hitem.
    exists (response_of item). split; [|split]; [|simpl|done].
    + apply list_elem_of_fmap. exists item. split; [done|].
      apply list_elem_of_fmap. by exists (library_id, item).
    + exact (proj1 (Forall_forall _ _) Hid _ Hitem).
Qed.

(** X20. The listing is in the order of the uploads: an accepted upload
    under an id that is not yet a key of the library adds its entry at
    the end of the listing, and leaves the entries before it as they
    were. *)
Theorem listing_grows_at_the_end request generated now db :
  String.prefix data_uri_prefix (req_pdf_data request) = true ->
  ("library_" +:+ generated) ∉ PyDict.keys (pdf_library db) ->
  list_library_pdfs (snd (upload_pdf_to_library request generated now db))
  = list_library_pdfs db
    ++ [ {| res_id := "library_" +:+ generated;
            res_title := req_title request;
            res_filename := req_filename request;
            res_total_pages := req_total_pages request;
            res_description := req_description request |} ].
Proof.
  intros Hprefix Hnew. apply dict_get_none in Hnew.
  unfold upload_pdf_to_library. rewrite Hprefix. simpl.
  unfold list_library_pdfs, PyDict.values. simpl.
  rewrite dict_set_new by done. by rewrite !map_app.
Qed.

End LibraryInvariant.

Lemma uploaded_pdf_can_be_fetched_witness :
  Library.get_library_pdf "library_7f3a" LibraryDemo.one_pdf
  = Library.Respond
      {| Library.det_id := "library_7f3a";
         Library.det_title := "Kim et al. 2016";
         Library.det_filename := "Kim2016.pdf";
         Library.det_pdf_data := "data:application/pdf;base64,JVBERi0xLjQ=";
         Library.det_total_pages := 9;
         Library.det_description := None |}.
Proof.
  exact (proj2 (uploaded_pdf_can_be_fetched LibraryDemo.request "7f3a"
                  1700000000 Store.empty eq_refl)).
Defined.

Lemma upload_checks_only_the_prefix_witness :
  Library.upload_pdf_to_library LibraryDemo.bare_request "7f3a" 1700000000
    LibraryDemo.one_pdf
  = (Library.HTTPException 400
       "PDF data must be base64-encoded with data URI prefix",
     LibraryDemo.one_pdf).
Proof.
  exact (proj1 (upload_checks_only_the_prefix LibraryDemo.bare_request "7f3a"
                  1700000000 LibraryDemo.one_pdf) eq_refl).
Defined.

Lemma unknown_pdf_is_not_found_witness :
  Library.delete_library_pdf "library_0000" LibraryDemo.one_pdf
  = (Library.HTTPException 404 "PDF not found in library",
     LibraryDemo.one_pdf).
Proof.
  refine (proj2 (unknown_pdf_is_not_found "library_0000" LibraryDemo.one_pdf
                   _)).
  vm_compute. intros Hin. apply list_elem_of_singleton in Hin. discriminate.
Defined.

Lemma deleted_pdf_is_gone_witness :
  fst (Library.delete_library_pdf "library_7f3a" LibraryDemo.one_pdf)
  = Library.Respond "Deleted Kim et al. 2016 from library"
  /\ Library.get_library_pdf "library_7f3a"
       (snd (Library.delete_library_pdf "library_7f3a" LibraryDemo.one_pdf))
     = Library.HTTPException 404 "PDF not found in library".
Proof.
  destruct (deleted_pdf_is_gone "library_7f3a" LibraryDemo.one_pdf _ eq_refl)
    as (Hmsg & Hgone & _).
  split; [exact Hmsg|exact Hgone].
Defined.

Lemma one_pdf_consistent : Library.consistent LibraryDemo.one_pdf.
Proof.
  split; vm_compute.
  - apply NoDup_singleton.
  - by repeat constructor.
Defined.

Lemma listing_matches_fetching_witness :
  exists entry,
    entry ∈ Library.list_library_pdfs LibraryDemo.one_pdf
    /\ Library.res_id entry = "library_7f3a"
    /\ Library.res_title entry = "Kim et al. 2016".
Proof.
  exact (proj2 (listing_matches_fetching LibraryDemo.one_pdf
                  one_pdf_consistent) "library_7f3a" _ eq_refl).
Defined.

Lemma listing_grows_at_the_end_witness :
  List.length
    (Library.list_library_pdfs
       (snd (Library.upload_pdf_to_library LibraryDemo.request "9c1d"
               1700000500 LibraryDemo.one_pdf)))
  = 2%nat.
Proof.
  rewrite (listing_grows_at_the_end LibraryDemo.request "9c1d" 1700000500
             LibraryDemo.one_pdf eq_refl).
  - reflexivity.
  - vm_compute. intros Hin. apply list_elem_of_singleton in Hin.
    discriminate.
Defined.

(* ===================================================================== *)
(** * Properties of the start-up and of the CORS set-up                  *)
(* ===================================================================== *)

Section StartupProperties.
Import Store Main.

Lemma create_demo_user_library out db :
  pdf_library (create_demo_user out db) = pdf_library db.
Proof. unfold create_demo_user. by destruct (users_by_email db !! _). Qed.

Lemma init_pdf_library_users out db :
  users (init_pdf_library out db) = users db
  /\ users_by_email (init_pdf_library out db) = users_by_email db.
Proof. unfold init_pdf_library. by destruct (pdf_library db). Qed.

Lemma demo_address_registered out db :
  is_Some (users_by_email (startup_event out db) !! demo_email).
Proof.
  unfold startup_event.
  destruct (init_pdf_library_users out (create_demo_user out db))
    as [_ ->].
  unfold create_demo_user.
  destruct (users_by_email db !! demo_email) as [uid|] eqn:Hdemo; simpl.
  - rewrite Hdemo. eauto.
  - rewrite lookup_insert_eq. eauto.
Qed.

(** X21. After the start-up the demo address is registered. When it was
    not registered before, it now leads to the generated id, under which
    a user with the demo address and the hash of the demo password is
    kept; when it was, users and addresses are left as they were. *)
Theorem startup_registers_demo_user out db :
  is_Some (users_by_email (startup_event out db) !! demo_email)
  /\ (users_by_email db !! demo_email = None ->
      users_by_email (startup_event out db) !! demo_email
      = Some (generated_id out)
      /\ users (startup_event out db) !! generated_id out
         = Some {| user_id := generated_id out;
                   email := "demo@example.com";
                   password_hash := hashpw out "demo123";
                   created_at := now_user out;
                   updated_at := now_user out |})
  /\ (is_Some (users_by_email db !! demo_email) ->
      users (startup_event out db) = users db
      /\ users_by_email (startup_event out db) = users_by_email db).
Proof.
  unfold startup_event.
  destruct (init_pdf_library_users out (create_demo_user out db))
    as [-> ->].
  unfold create_demo_user.
  destruct (users_by_email db !! demo_email) as [uid|] eqn:Hdemo; simpl.
  - rewrite Hdemo. split; [eauto|]. split; [done|]. done.
  - rewrite !lookup_insert_eq. split; [eauto|]. split; [done|].
    by intros [? ?].
Qed.

(** X22. Starting up a second time, whatever the surroundings then are,
    adds no user and no address, and leaves a library that is not empty
    as it is. *)
Theorem startup_twice_changes_nothing out out' db :
  users (startup_event out' (startup_event out db))
  = users (startup_event out db)
  /\ users_by_email (startup_event out' (startup_event out db))
     = users_by_email (startup_event out db)
  /\ (pdf_library (startup_event out db) <> [] ->
      startup_event out' (startup_event out db) = startup_event out db).
Proof.
  destruct (demo_address_registered out db) as [uid Hdemo].
  remember (startup_event out db) as started eqn:Hstarted.
  assert (Huser : create_demo_user out' started = started).
  { unfold create_demo_user. by rewrite Hdemo. }
  unfold startup_event. rewrite Huser.
  destruct (init_pdf_library_users out' started) as [-> ->].
  split; [done|]. split; [done|].
  intros Hfull. unfold init_pdf_library.
  by destruct (pdf_library started).
Qed.

(** X23. On an empty library the start-up looks for Kim2016.pdf in the
    public folder. When the file is there, the library then lists exactly
    that PDF, which can be fetched as "sample_kim2016" with 9 pages and
    with data that is the data URI prefix (the one an upload must have)
    followed by the encoded file; when the file is not there, the library
    stays empty. *)
Theorem startup_fills_an_empty_library out db :
  pdf_library db = [] ->
  match public_files out !! "Kim2016.pdf" with
  | Some content =>
      Library.get_library_pdf "sample_kim2016" (startup_event out db)
      = Library.Respond
          {| Library.det_id := "sample_kim2016";
             Library.det_title :=
               "Kim et al. 2016 - Cerebellar Infarction Study";
             Library.det_filename := "Kim2016.pdf";
             Library.det_pdf_data :=
               Library.data_uri_prefix +:+ b64encode out content;
             Library.det_total_pages := 9;
             Library.det_description :=
               Some "Clinical study on cerebellar infarction treatment outcomes"
          |}
      /\ List.length (Library.list_library_pdfs (startup_event out db))
         = 1%nat
      /\ String.prefix Library.data_uri_prefix
           (Library.data_uri_prefix +:+ b64encode out content) = true
  | None => Library.list_library_pdfs (startup_event out db) = []
  end.
Proof.
  intros Hempty.
  unfold startup_event, init_pdf_library, Library.get_library_pdf,
    Library.list_library_pdfs.
  rewrite create_demo_user_library, Hempty. simpl.
  rewrite create_demo_user_library, Hempty. simpl.
  unfold add_library_pdf. simpl.
  destruct (public_files out !! "Kim2016.pdf") as [content|]; simpl; [|done].
  split; [done|]. split; [done|].
  unfold Library.data_uri_prefix. simpl.
  repeat (destruct (Ascii.ascii_dec _ _); [|done]).
  by destruct (b64encode out content).
Qed.

End StartupProperties.

Lemma startup_fills_an_empty_library_witness :
  Library.list_library_pdfs (Main.startup_event MainDemo.outside Store.empty)
  = [ {| Library.res_id := "sample_kim2016";
         Library.res_title := "Kim et al. 2016 - Cerebellar Infarction Study";
         Library.res_filename := "Kim2016.pdf";
         Library.res_total_pages := 9;
         Library.res_description :=
           Some "Clinical study on cerebellar infarction treatment outcomes"
      |} ]
  /\ Library.list_library_pdfs (Main.startup_event MainDemo.later Store.empty)
     = [].
Proof.
  split; [reflexivity|].
  exact (startup_fills_an_empty_library MainDemo.later Store.empty eq_refl).
Defined.

Section CorsProperties.
Import Main.

Variable strip : string -> string.
Variable environ : gmap string string.

Lemma configured_origin_cases origin :
  origin ∈ configured_origins strip environ ->
  (origin = "*" /\ cors_origins_env environ = "*")
  \/ (exists piece,
        piece ∈ split_comma (cors_origins_env environ)
        /\ origin = strip piece /\ origin <> "").
Proof.
  unfold configured_origins.
  destruct (nonempty (cors_origins_env environ)); [|by intros ?%elem_of_nil].
  destruct (String.eqb (cors_origins_env environ) "*") eqn:Hstar.
  - intros ->%list_elem_of_singleton. left. split; [done|].
    by apply String.eqb_eq.
  - intros (piece & -> & Hin)%list_elem_of_fmap.
    apply list_elem_of_filter in Hin as [Hkeep Hin]. right.
    exists piece. split; [done|]. split; [done|].
    by destruct (strip piece).
Qed.

(** X24. Whatever [CORS_ORIGINS] holds, the origins handed to the CORS
    middleware are the whole list built up (it is never cut down to the
    wildcard alone), the four local development origins are among them,
    and the empty string is not. *)
Theorem local_origins_are_always_allowed :
  allow_origins strip environ = allowed_origins strip environ
  /\ (forall origin,
        origin ∈ localhost_origins -> origin ∈ allow_origins strip environ)
  /\ "" ∉ allow_origins strip environ.
Proof.
  assert (Hsame : allow_origins strip environ = allowed_origins strip environ).
  { unfold allow_origins. by case_bool_decide as Hstar; [rewrite Hstar|]. }
  rewrite Hsame. split; [done|]. unfold allowed_origins. split.
  - intros origin Hin. apply elem_of_app. right. apply elem_of_app. by left.
  - intros Hin. apply elem_of_app in Hin as [Hin|Hin].
    + apply configured_origin_cases in Hin as [[? _]|(? & _ & _ & ?)]; done.
    + apply elem_of_app in Hin as [Hin|Hin].
      * unfold localhost_origins in Hin.
        repeat (apply elem_of_cons in Hin as [Hin|Hin]; [done|]).
        by apply elem_of_nil in Hin.
      * unfold replit_url in Hin.
        destruct (environ !! "REPL_SLUG"), (environ !! "REPL_OWNER");
          simpl in Hin; try by apply elem_of_nil in Hin.
        destruct (nonempty _ && nonempty _); simpl in Hin;
          [|by apply elem_of_nil in Hin].
        by apply list_elem_of_singleton in Hin.
Qed.

Lemma configured_origins_exactly origin :
  origin ∈ configured_origins strip environ
  <-> (origin = "*" /\ cors_origins_env environ = "*")
      \/ (cors_origins_env environ <> ""
          /\ cors_origins_env environ <> "*"
          /\ origin <> ""
          /\ exists piece,
               piece ∈ split_comma (cors_origins_env environ)
               /\ origin = strip piece).
Proof.
  unfold configured_origins.
  destruct (nonempty (cors_origins_env environ)) eqn:Hfull.
  2:{ assert (Henv : cors_origins_env environ = "")
        by (by destruct (cors_origins_env environ)).
      split; [by intros ?%elem_of_nil|].
      rewrite Henv. intros [[_ [=]]|(Hne & _)]; done. }
  assert (Henv : cors_origins_env environ <> "")
    by (by destruct (cors_origins_env environ)).
  destruct (String.eqb (cors_origins_env environ) "*") eqn:Hstar.
  - apply String.eqb_eq in Hstar. split.
    + intros ->%list_elem_of_singleton. by left.
    + intros [[-> _]|(_ & Hne & _)]; [apply list_elem_of_here|done].
  - apply String.eqb_neq in Hstar. split.
    + intros (piece & -> & Hin)%list_elem_of_fmap.
      apply list_elem_of_filter in Hin as [Hkeep Hin]. right.
      split; [done|]. split; [done|].
      split; [by destruct (strip piece)|]. by exists piece.
    + intros [[_ Heq]|(_ & _ & Hne & piece & Hin & ->)]; [done|].
      apply list_elem_of_fmap. exists piece. split; [done|].
      apply list_elem_of_filter. split; [|done].
      by destruct (strip piece).
Qed.

Lemma replit_url_is_no_wildcard : replit_url environ <> Some "*".
Proof.
  unfold replit_url.
  destruct (environ !! "REPL_SLUG"), (environ !! "REPL_OWNER"); try done.
  by destruct (nonempty _ && nonempty _).
Qed.

(** X25. The origins handed to the CORS middleware are exactly these:
    the local development origins; the Replit address built from
    [REPL_SLUG] and [REPL_OWNER]; the wildcard when [CORS_ORIGINS] is the
    wildcard alone; and otherwise the pieces of a non-empty
    [CORS_ORIGINS] between commas, stripped and not empty. A piece may
    itself be the wildcard: the wildcard is handed on when [CORS_ORIGINS]
    is the wildcard alone and also when one of several pieces strips to
    it, but the pattern for replit.dev is set only in the first case. *)
Theorem allowed_origins_come_from_the_settings origin :
  (origin ∈ allow_origins strip environ
   <-> origin ∈ localhost_origins
       \/ replit_url environ = Some origin
       \/ (origin = "*" /\ environ !! "CORS_ORIGINS" = Some "*")
       \/ (cors_origins_env environ <> ""
           /\ cors_origins_env environ <> "*"
           /\ origin <> ""
           /\ exists piece,
                piece ∈ split_comma (cors_origins_env environ)
                /\ origin = strip piece))
  /\ ("*" ∈ allow_origins strip environ
      <-> environ !! "CORS_ORIGINS" = Some "*"
          \/ (cors_origins_env environ <> ""
              /\ cors_origins_env environ <> "*"
              /\ exists piece,
                   piece ∈ split_comma (cors_origins_env environ)
                   /\ strip piece = "*"))
  /\ (is_Some (allow_origin_regex environ)
      <-> environ !! "CORS_ORIGINS" = Some "*").
Proof.
  assert (Hstar : cors_origins_env environ = "*"
                  <-> environ !! "CORS_ORIGINS" = Some "*").
  { unfold cors_origins_env.
    destruct (environ !! "CORS_ORIGINS") as [value|]; simpl.
    - split; [by intros ->|by intros [= ->]].
    - split; discriminate. }
  assert (Hsame : allow_origins strip environ = allowed_origins strip environ).
  { unfold allow_origins. by case_bool_decide as Hall; [rewrite Hall|]. }
  assert (Hall : forall o,
    o ∈ allow_origins strip environ
    <-> o ∈ localhost_origins
        \/ replit_url environ = Some o
        \/ (o = "*" /\ environ !! "CORS_ORIGINS" = Some "*")
        \/ (cors_origins_env environ <> ""
            /\ cors_origins_env environ <> "*"
            /\ o <> ""
            /\ exists piece,
                 piece ∈ split_comma (cors_origins_env environ)
                 /\ o = strip piece)).
  { intros o. rewrite Hsame. unfold allowed_origins.
    rewrite !elem_of_app, configured_origins_exactly, Hstar.
    assert (Hurl : o ∈ option_list (replit_url environ)
                   <-> replit_url environ = Some o).
    { destruct (replit_url environ) as [url|]; simpl.
      - rewrite list_elem_of_singleton. split; [by intros ->|by intros [= ->]].
      - split; [by intros ?%elem_of_nil|done]. }
    rewrite Hurl. tauto. }
  split; [apply Hall|]. split.
  - rewrite Hall. split.
    + intros [Hlocal|[Hurl|[[_ Henv]|(Hne & Hns & _ & piece & Hin & Heq)]]].
      * unfold localhost_origins in Hlocal.
        repeat (apply elem_of_cons in Hlocal as [Hlocal|Hlocal]; [done|]).
        by apply elem_of_nil in Hlocal.
      * by apply replit_url_is_no_wildcard in Hurl.
      * by left.
      * right. split; [done|]. split; [done|]. by exists piece.
    + intros [Henv|(Hne & Hns & piece & Hin & Heq)].
      * right. right. by left.
      * right. right. right. split; [done|]. split; [done|].
        split; [done|]. by exists piece.
  - unfold allow_origin_regex. rewrite <- Hstar.
    destruct (String.eqb (cors_origins_env environ) "*") eqn:Heq.
    + apply String.eqb_eq in Heq. split; [done|eauto].
    + apply String.eqb_neq in Heq. split; [by intros [? ?]|done].
Qed.

End CorsProperties.

Lemma local_origins_are_always_allowed_witness :
  "http://localhost:5173"
  ∈ Main.allow_origins MainDemo.strip_spaces MainDemo.wildcard_environ
  /\ Main.allow_origins MainDemo.strip_spaces MainDemo.environ
     = [ "https://a.example"; "https://b.example";
         "http://localhost:5173"; "http://localhost:5000";
         "http://127.0.0.1:5173"; "http://127.0.0.1:5000" ].
Proof.
  split; [|reflexivity].
  apply (proj1 (proj2 (local_origins_are_always_allowed MainDemo.strip_spaces
                         MainDemo.wildcard_environ))).
  apply list_elem_of_here.
Defined.

Lemma allowed_origins_come_from_the_settings_witness :
  "*" ∈ Main.allow_origins MainDemo.strip_spaces MainDemo.mixed_environ
  /\ Main.allow_origin_regex MainDemo.mixed_environ = None
  /\ Main.allow_origins MainDemo.strip_spaces MainDemo.mixed_environ
     = [ "*"; "https://a.example";
         "http://localhost:5173"; "http://localhost:5000";
         "http://127.0.0.1:5173"; "http://127.0.0.1:5000" ]
  /\ is_Some (Main.allow_origin_regex MainDemo.wildcard_environ).
Proof.
  split; [|split; [reflexivity|split; [reflexivity|]]].
  - apply (proj1 (proj2 (allowed_origins_come_from_the_settings
                           MainDemo.strip_spaces MainDemo.mixed_environ ""))).
    right. split; [done|]. split; [done|].
    exists "*". split; [|reflexivity]. apply list_elem_of_here.
  - apply (proj2 (proj2 (allowed_origins_come_from_the_settings
                           MainDemo.strip_spaces MainDemo.wildcard_environ
                           ""))).
    reflexivity.
Defined.

Lemma startup_twice_changes_nothing_witness :
  Main.startup_event MainDemo.later
    (Main.startup_event MainDemo.outside Store.empty)
  = Main.startup_event MainDemo.outside Store.empty.
Proof.
  apply (proj2 (proj2 (startup_twice_changes_nothing MainDemo.outside
                         MainDemo.later Store.empty))).
  discriminate.
Defined.

Lemma startup_registers_demo_user_witness :
  Store.users_by_email (Main.startup_event MainDemo.outside Store.empty)
    !! "demo@example.com"
  = Some "u-001".
Proof.
  exact (proj1 (proj1 (proj2 (startup_registers_demo_user MainDemo.outside
                                Store.empty)) eq_refl)).
Defined.

(* ===================================================================== *)
(** * Registration: when the polling stops, what is left on disk         *)
(* ===================================================================== *)

(** A run of the polling loop from an unfinished operation that hands
    back a finished one stopped right after the poll that reported
    completion, and no poll before it did. *)
Lemma poll_stops c fuel : forall operation elapsed s operation' s',
  poll fuel c operation elapsed s = (Ok operation', s') ->
  done operation = false ->
  done operation' = true ->
  exists rounds last,
    trace s' = trace s ++ rounds ++ [last]
    /\ some_call (answer_done c) (trace s) rounds = false
    /\ answer_done c (trace s ++ rounds) last = true.
Proof.
  induction fuel as [|fuel IH]; intros operation elapsed s operation' s'
    Hrun Hd Hd'; unfold poll in Hrun; fold poll in Hrun; rewrite Hd in Hrun;
    simpl in Hrun; destruct (elapsed <? max_wait); try discriminate;
    try (injection Hrun as <- <-; congruence).
  unfold bind, sleep, modify, remote, log in Hrun. simpl in Hrun.
  destruct (operations_get c (trace s ++ [EvSleep poll_interval]) operation)
    as [operation1|msg] eqn:Hget; simpl in Hrun; [|discriminate].
  destruct (done operation1) eqn:Hd1.
  - rewrite poll_finished in Hrun by done. injection Hrun as <- <-.
    exists [EvSleep poll_interval], (EvOperationsGet operation). simpl.
    split; [by rewrite <- app_assoc|]. split; [done|]. by rewrite Hget.
  - destruct (IH _ _ _ _ _ Hrun Hd1 Hd') as (rounds & last & Htrace & Hnone
                                            & Hlast).
    simpl in Htrace, Hnone, Hlast.
    exists (EvSleep poll_interval :: EvOperationsGet operation :: rounds), last.
    split; [|split].
    + rewrite Htrace, <- !app_assoc. done.
    + simpl. by rewrite Hget, Hd1.
    + rewrite <- Hlast. f_equal. by rewrite <- !app_assoc.
Qed.

(** X26. A registration that returns normally stopped at the first
    completion: the last thing it did remotely is the call (the upload,
    or a poll) that handed back a finished operation, and no call before
    it had. *)
Theorem registration_stops_at_first_completion
  rt c doc pdf_base64 filename s v s' :
  client s = Some c ->
  upload_pdf_to_file_search rt doc pdf_base64 filename s = (Ok v, s') ->
  exists before last,
    trace s' = trace s ++ before ++ [last]
    /\ some_call (answer_done c) (trace s) before = false
    /\ answer_done c (trace s ++ before) last = true.
Proof.
  intros Hc Hrun. rewrite (upload_unfold rt c) in Hrun by done.
  destruct (b64decode rt (encoded_part pdf_base64)) as [pdf_data|]; [|done].
  simpl in Hrun.
  destruct (file_search_stores_create c (trace s) _) as [store|]
    eqn:Hcreate; [|done].
  destruct (upload_to_file_search_store c _ _ _ _) as [operation|]
    eqn:Hupload; [|done].
  destruct (done operation) eqn:Hd.
  - rewrite poll_finished in Hrun by done. rewrite Hd in Hrun.
    injection Hrun as _ <-. simpl.
    exists [EvCreateStore ("clinical_doc_" +:+ doc)],
      (EvUpload (mkstemp rt (files s)) (name store) filename).
    simpl. split; [by rewrite <- app_assoc|]. split; [done|].
    by rewrite Hupload.
  - destruct (poll poll_fuel c operation 0 _) as [[operation'|msg|] s3]
      eqn:Hpoll; try done.
    destruct (done operation') eqn:Hd'; [|done].
    injection Hrun as _ <-.
    destruct (poll_stops _ _ _ _ _ _ _ Hpoll Hd Hd')
      as (rounds & last & Htrace & Hnone & Hlast).
    simpl in Htrace, Hnone, Hlast.
    exists (EvCreateStore ("clinical_doc_" +:+ doc)
            :: EvUpload (mkstemp rt (files s)) (name store) filename
            :: rounds), last.
    simpl. split; [|split].
    + rewrite Htrace, <- !app_assoc. done.
    + rewrite Hupload, Hd. simpl. exact Hnone.
    + rewrite <- !app_assoc in Hlast. exact Hlast.
Qed.

Lemma registration_stops_at_first_completion_witness :
  exists before,
    trace (snd (upload_pdf_to_file_search Demo.runtime "doc-1"
                  Demo.pdf_data_uri "good.pdf"
                  (init (Some Demo.slow_client))))
    = before ++ [EvOperationsGet {| op_name := "good.pdf"; done := false |}]
    /\ some_call (answer_done Demo.slow_client) [] before = false.
Proof.
  destruct (registration_stops_at_first_completion Demo.runtime
              Demo.slow_client "doc-1" Demo.pdf_data_uri "good.pdf"
              (init (Some Demo.slow_client)) _ _ eq_refl eq_refl)
    as (before & last & Htrace & Hnone & _).
  exists before. simpl in Htrace.
  assert (Hlast : last = EvOperationsGet {| op_name := "good.pdf";
                                            done := false |}).
  { apply (f_equal (fun l => List.last l last)) in Htrace.
    rewrite last_last in Htrace. vm_compute in Htrace. by symmetry. }
  subst last. split; [exact Htrace|exact Hnone].
Defined.

(** X27. A registration that returns normally leaves the temporary
    directory as it found it, provided the name it was given for the
    temporary file was not in use. *)
Theorem successful_registration_leaves_no_file
  rt c doc pdf_base64 filename s v s' :
  client s = Some c ->
  files s !! mkstemp rt (files s) = None ->
  upload_pdf_to_file_search rt doc pdf_base64 filename s = (Ok v, s') ->
  files s' = files s.
Proof.
  intros Hc Hfresh Hrun.
  destruct (upload_run rt c doc pdf_base64 filename s _ s' Hc Hrun)
    as (new & _ & _ & _ & _ & _ & _ & Hfail & _ & _ & Hfiles & _).
  rewrite Hfiles. destruct (b64decode rt (encoded_part pdf_base64)); [|done].
  simpl. destruct (some_call (answer_failed c) (trace s) new).
  - by specialize (Hfail eq_refl).
  - rewrite delete_insert_eq. by apply delete_id.
Qed.

Lemma successful_registration_leaves_no_file_witness :
  files (snd (upload_pdf_to_file_search Demo.runtime "doc-1"
                Demo.pdf_data_uri "good.pdf" (init (Some Demo.slow_client))))
  = ∅.
Proof.
  exact (successful_registration_leaves_no_file Demo.runtime Demo.slow_client
           "doc-1" Demo.pdf_data_uri "good.pdf"
           (init (Some Demo.slow_client)) _ _ eq_refl eq_refl eq_refl).
Defined.
